(** * pyBPL: uniform cubic B-splines and stroke relations

    A shallow embedding of [pybpl/splines.py] and [pybpl/relation.py].

    Numeric model.  A torch float is modelled by [tfloat]: a rational number
    (every finite float is one) or one of the IEEE special values.  Arithmetic
    on finite values is exact; rounding and overflow are not modelled.  The
    special values follow IEEE 754 as torch implements it: [0/0] is NaN,
    [x/0] is an infinity, every comparison with NaN is false. *)

From Stdlib Require Import QArith Qround Qabs ZArith List Bool Lia Lra Psatz.
From Stdlib Require String.
Import ListNotations.
Import String.StringSyntax.
Delimit Scope string_scope with string.
Open Scope Q_scope.

(** ** Torch floats *)

Inductive tfloat : Type :=
| Fin (q : Q)
| PInf
| NInf
| NaN.

Definition tZ (z : Z) : tfloat := Fin (inject_Z z).

Definition Qlt_bool (a b : Q) : bool := negb (Qle_bool b a).

(** The result of multiplying an infinity by [q], or of dividing [q] by zero. *)
Definition Qsign_inf (q : Q) : tfloat :=
  if Qlt_bool 0 q then PInf else if Qlt_bool q 0 then NInf else NaN.

Definition tneg (x : tfloat) : tfloat :=
  match x with
  | Fin q => Fin (- q)
  | PInf => NInf
  | NInf => PInf
  | NaN => NaN
  end.

Definition tadd (x y : tfloat) : tfloat :=
  match x, y with
  | NaN, _ | _, NaN => NaN
  | Fin a, Fin b => Fin (a + b)
  | PInf, NInf | NInf, PInf => NaN
  | PInf, _ | _, PInf => PInf
  | NInf, _ | _, NInf => NInf
  end.

Definition tsub (x y : tfloat) : tfloat := tadd x (tneg y).

Definition tmul (x y : tfloat) : tfloat :=
  match x, y with
  | NaN, _ | _, NaN => NaN
  | Fin a, Fin b => Fin (a * b)
  | PInf, Fin b | Fin b, PInf => Qsign_inf b
  | NInf, Fin b | Fin b, NInf => tneg (Qsign_inf b)
  | PInf, PInf | NInf, NInf => PInf
  | PInf, NInf | NInf, PInf => NInf
  end.

Definition tdiv (x y : tfloat) : tfloat :=
  match x, y with
  | NaN, _ | _, NaN => NaN
  | Fin a, Fin b => if Qeq_bool b 0 then Qsign_inf a else Fin (a / b)
  | Fin _, PInf | Fin _, NInf => Fin 0
  | PInf, Fin b => if Qlt_bool b 0 then NInf else PInf
  | NInf, Fin b => if Qlt_bool b 0 then PInf else NInf
  | _, _ => NaN
  end.

(** [torch.pow(x, n)] for a small literal exponent. *)
Fixpoint tpow (x : tfloat) (n : nat) : tfloat :=
  match n with
  | O => Fin 1
  | S O => x
  | S m => tmul x (tpow x m)
  end.

(** [x < y] and [x <= y]; false as soon as one side is NaN. *)
Definition tlt (x y : tfloat) : bool :=
  match x, y with
  | NaN, _ | _, NaN => false
  | Fin a, Fin b => Qlt_bool a b
  | PInf, _ | _, NInf => false
  | NInf, _ | _, PInf => true
  end.

Definition tle (x y : tfloat) : bool :=
  match x, y with
  | NaN, _ | _, NaN => false
  | Fin a, Fin b => Qle_bool a b
  | NInf, _ | _, PInf => true
  | PInf, _ | _, NInf => false
  end.

Definition tge (x y : tfloat) : bool := tle y x.
Definition tgt (x y : tfloat) : bool := tlt y x.

Definition is_finite (x : tfloat) : bool :=
  match x with Fin _ => true | _ => false end.


(** Equality of floats as numbers: rationals are compared by value. *)
Definition teq (x y : tfloat) : Prop :=
  match x, y with
  | Fin a, Fin b => a == b
  | PInf, PInf | NInf, NInf | NaN, NaN => True
  | _, _ => False
  end.

(** [torch.sum] over one dimension. *)
Definition tsum (l : list tfloat) : tfloat := fold_right tadd (Fin 0) l.

(** ** Tensors

    A 1-D tensor is a list, a 2-D tensor a list of rows. *)

Definition vector := list tfloat.
Definition matrix := list (list tfloat).

Definition shape_eqb (a b : matrix) : bool :=
  Nat.eqb (length a) (length b) &&
  forallb (fun p => Nat.eqb (length (fst p)) (length (snd p))) (combine a b).

Definition map2 {A B C} (f : A -> B -> C) (l1 : list A) (l2 : list B) : list C :=
  map (fun p => f (fst p) (snd p)) (combine l1 l2).


(** ** splines.py *)

(** One entry of [vectorized_bspline_coeff]: [C] starts at zero and each of the
    four masks [sel] overwrites the entries it selects, in source order. *)
Definition bspline_coeff_entry (vi vs : tfloat) : tfloat :=
  let C := Fin 0 in
  (* sel1 *)
  let C :=
    if tge vs vi && tlt vs (tadd vi (Fin 1)) then
      let diff := tsub vs vi in
      let val := tpow diff 3 in
      tdiv val (Fin 6)
    else C in
  (* sel2 *)
  let C :=
    if tge vs (tadd vi (Fin 1)) && tlt vs (tadd vi (Fin 2)) then
      let diff := tsub (tsub vs vi) (Fin 1) in
      let val := tadd (tadd (tadd (tmul (Fin (-3)) (tpow diff 3))
                                  (tmul (Fin 3) (tpow diff 2)))
                            (tmul (Fin 3) diff))
                      (Fin 1) in
      tdiv val (Fin 6)
    else C in
  (* sel3 *)
  let C :=
    if tge vs (tadd vi (Fin 2)) && tlt vs (tadd vi (Fin 3)) then
      let diff := tsub (tsub vs vi) (Fin 2) in
      let val := tadd (tsub (tmul (Fin 3) (tpow diff 3))
                            (tmul (Fin 6) (tpow diff 2)))
                      (Fin 4) in
      tdiv val (Fin 6)
    else C in
  (* sel4 *)
  let C :=
    if tge vs (tadd vi (Fin 3)) && tlt vs (tadd vi (Fin 4)) then
      let diff := tsub (tsub vs vi) (Fin 3) in
      let val := tpow (tsub (Fin 1) diff) 3 in
      tdiv val (Fin 6)
    else C in
  C.

(** [vectorized_bspline_coeff(vi, vs)]; [None] when the shape assertion fails.
    (All tensors of the model are float tensors, so the dtype assertion always
    passes.) *)
Definition vectorized_bspline_coeff (vi vs : matrix) : option matrix :=
  if shape_eqb vi vs then Some (map2 (map2 bspline_coeff_entry) vi vs)
  else None.

(** [torch.linspace(start, end, steps)]: [steps] values evenly spaced from
    [start] to [end], both included; a negative [steps] is a RuntimeError. *)
Definition linspace (start stop : tfloat) (steps : Z) : option vector :=
  if (steps <? 0)%Z then None
  else if (steps =? 1)%Z then Some [start]
  else
    let step := tdiv (tsub stop start) (tZ (steps - 1)) in
    Some (map (fun i => tadd start (tmul (tZ (Z.of_nat i)) step))
              (seq 0 (Z.to_nat steps))).

(** [bspline_gen_s(nland, neval)] returns [(s, lb, ub)]. *)
Definition bspline_gen_s (nland neval : Z) : option (vector * tfloat * tfloat) :=
  let lb := tZ 2 in
  let ub := tZ (nland + 1) in
  if (neval =? 1)%Z then Some ([lb], lb, ub)
  else
    match linspace lb ub neval with
    | Some s => Some (s, lb, ub)
    | None => None
    end.

(** The first argument of [bspline_eval]: a 0-dim tensor or a 1-D tensor. *)
Inductive param : Type :=
| Scalar (x : tfloat)
| Vec (v : vector).

Definition column (k : nat) (Y : matrix) : vector :=
  map (fun row => nth k row (Fin 0)) Y.

(** [A @ B] for [B] with [ncols] columns. *)
Definition matmul (A B : matrix) (ncols : nat) : matrix :=
  map (fun row => map (fun k => tsum (map2 tmul row (column k B))) (seq 0 ncols)) A.

Definition arange (n : nat) : vector := map (fun i => tZ (Z.of_nat i)) (seq 0 n).

(** [A / torch.sum(A, dim=1, keepdim=True)]: every row divided by its sum. *)
Definition normalize_rows (A : matrix) : matrix :=
  map (fun row => map (fun a => tdiv a (tsum row)) row) A.

(** [bspline_eval(s, Y)] returns [(X, Cof)]; [None] when an assertion fails. *)
Definition bspline_eval (s : param) (Y : matrix) : option (matrix * matrix) :=
  let s := match s with Scalar x => [x] | Vec v => v end in
  if forallb (fun row => Nat.eqb (length row) 2) Y then
    let neval := length s in
    let nland := length Y in
    let S := map (fun x => repeat x nland) s in
    let I := repeat (arange nland) neval in
    match vectorized_bspline_coeff I S with
    | Some A =>
        let Cof := normalize_rows A in
        let X := matmul Cof Y 2 in
        Some (X, Cof)
    | None => None
    end
  else None.

(** [math.ceil] of a float: an [int], or an exception on NaN and infinities. *)
Definition py_ceil (x : tfloat) : option Z :=
  match x with
  | Fin q => Some (Qceiling q)
  | _ => None
  end.

Section AdaptiveParameterization.

(** [pybpl/parameters.py] and [pybpl/util/stroke.py] are not part of the
    sources at hand: the three fields of [defaultps()] read by
    [get_stk_from_bspline] and the helper [dist_along_traj] are parameters. *)
Variable spline_min_neval spline_max_neval : Z.
Variable spline_grain : tfloat.
Variable dist_along_traj : matrix -> tfloat.

(** The sample count chosen when [neval is None]; [None] on an exception. *)
Definition adaptive_neval (Y : matrix) : option Z :=
  let nland := Z.of_nat (length Y) in
  let min_neval := spline_min_neval in
  let max_neval := spline_max_neval in
  let spl_grain := spline_grain in
  match bspline_gen_s nland min_neval with
  | Some (s, _, _) =>
      match bspline_eval (Vec s) Y with
      | Some (stk, _) =>
          let dist := dist_along_traj stk in
          match py_ceil (tdiv dist spl_grain) with
          | Some neval =>
              let neval := Z.max neval min_neval in
              let neval := Z.min neval max_neval in
              Some neval
          | None => None
          end
      | None => None
      end
  | None => None
  end.

(** [get_stk_from_bspline(Y, neval)]; [neval = None] is the default. *)
Definition get_stk_from_bspline (Y : matrix) (neval : option Z) : option matrix :=
  if forallb (fun row => Nat.eqb (length row) 2) Y then
    let nland := Z.of_nat (length Y) in
    match (match neval with
           | None => adaptive_neval Y
           | Some n => Some n
           end) with
    | Some neval =>
        match bspline_gen_s nland neval with
        | Some (s, _, _) =>
            match bspline_eval (Vec s) Y with
            | Some (X, _) => Some X
            | None => None
            end
        | None => None
        end
    | None => None
    end
  else None.

(** The trajectory at the reference sample count, whose length is measured. *)
Definition reference_stroke (Y : matrix) : option matrix :=
  match bspline_gen_s (Z.of_nat (length Y)) spline_min_neval with
  | Some (s, _, _) => option_map fst (bspline_eval (Vec s) Y)
  | None => None
  end.

End AdaptiveParameterization.

(** ** relation.py *)

Definition categories_allowed : list String.string :=
  ["unihist"; "start"; "end"; "mid"]%string.

Definition str_in (c : String.string) (l : list String.string) : bool :=
  existsb (String.eqb c) l.

(** [l[i]] on a Python list or along the first dimension of a tensor: negative
    indices count from the end, anything else out of range is an IndexError. *)
Definition py_index {A : Type} (l : list A) (i : Z) : option A :=
  let n := Z.of_nat (length l) in
  if ((0 <=? i) && (i <? n))%Z then nth_error l (Z.to_nat i)
  else if ((- n <=? i) && (i <? 0))%Z then nth_error l (Z.to_nat (n + i))
  else None.

Fixpoint sequence {A : Type} (l : list (option A)) : option (list A) :=
  match l with
  | [] => Some []
  | x :: r =>
      match x, sequence r with
      | Some a, Some b => Some (a :: b)
      | _, _ => None
      end
  end.

(** A tensor of rank 3, as nested lists, and the slice [t[:, :, k]]. *)
Definition tensor3 := list (list (list tfloat)).

Definition slice_last (t : tensor3) (k : Z) : option matrix :=
  sequence (map (fun plane => sequence (map (fun cell => py_index cell k) plane)) t).

(** What the attach point of a relation is bound to: a tensor of rank 1 or 2
    ([torch.squeeze(loc, dim=0)] leaves a first dimension other than 1). *)
Inductive tensor : Type :=
| T1 (v : vector)
| T2 (m : matrix).

Definition squeeze0 (m : matrix) : tensor :=
  match m with
  | [row] => T1 row
  | _ => T2 m
  end.

(** The two attributes of a [PartToken] that relations read. *)
Record PartToken : Type := {
  motor : list matrix;
  motor_spline : tensor3
}.

(** [torch.distributions]: the parameters of the two distributions. *)
Record Normal : Type := { loc : Q; scale : Q }.
Record MultivariateNormal : Type := { mvn_loc : vector; mvn_cov : matrix }.

(** The entries of the library that relations read. *)
Record Library : Type := {
  rel_sigma_x : tfloat;
  rel_sigma_y : tfloat;
  lib_ncpt : Z;
  tokenvar_sigma_attach : Q
}.

(** The class hierarchy: one constructor per class, carrying the attributes
    that the class and its ancestors set in [__init__]. *)
Inductive Relation : Type :=
| IsRelation (category : String.string) (loc_dist : MultivariateNormal)
| IsRelationIndependent (category : String.string) (loc_dist : MultivariateNormal)
    (gpos : vector)
| IsRelationAttach (category : String.string) (loc_dist : MultivariateNormal)
    (attach_ix : Z)
| IsRelationAttachAlong (category : String.string) (loc_dist : MultivariateNormal)
    (attach_ix attach_subix ncpt : Z) (eval_spot_dist : Normal).

Definition category (r : Relation) : String.string :=
  match r with
  | IsRelation c _ | IsRelationIndependent c _ _
  | IsRelationAttach c _ _ | IsRelationAttachAlong c _ _ _ _ _ => c
  end.

(** Attribute reads; [None] is an AttributeError. *)
Definition gpos (r : Relation) : option vector :=
  match r with IsRelationIndependent _ _ g => Some g | _ => None end.

Definition attach_ix (r : Relation) : option Z :=
  match r with
  | IsRelationAttach _ _ i | IsRelationAttachAlong _ _ i _ _ _ => Some i
  | _ => None
  end.

Definition attach_subix (r : Relation) : option Z :=
  match r with IsRelationAttachAlong _ _ _ k _ _ => Some k | _ => None end.

Definition make_loc_dist (lib : Library) : MultivariateNormal :=
  {| mvn_loc := [Fin 0; Fin 0];
     mvn_cov := [[rel_sigma_x lib; Fin 0]; [Fin 0; rel_sigma_y lib]] |}.

(** The four [__init__] methods; [None] when an assertion fails. *)
Definition Relation_init (c : String.string) (lib : Library) : option Relation :=
  if str_in c categories_allowed then Some (IsRelation c (make_loc_dist lib))
  else None.

Definition RelationIndependent_init (c : String.string) (g : vector) (lib : Library)
  : option Relation :=
  match Relation_init c lib with
  | Some _ =>
      if String.eqb c "unihist"%string && Nat.eqb (length g) 2
      then Some (IsRelationIndependent c (make_loc_dist lib) g)
      else None
  | None => None
  end.

Definition RelationAttach_init (c : String.string) (ix : Z) (lib : Library)
  : option Relation :=
  match Relation_init c lib with
  | Some _ =>
      if str_in c ["start"; "end"; "mid"]%string
      then Some (IsRelationAttach c (make_loc_dist lib) ix)
      else None
  | None => None
  end.

Definition RelationAttachAlong_init (c : String.string) (ix subix : Z)
  (eval_spot : Q) (lib : Library) : option Relation :=
  match RelationAttach_init c ix lib with
  | Some _ =>
      if String.eqb c "mid"%string
      then Some (IsRelationAttachAlong c (make_loc_dist lib) ix subix (lib_ncpt lib)
                   {| loc := eval_spot; scale := tokenvar_sigma_attach lib |})
      else None
  | None => None
  end.

(** A relation object that one of the four classes can construct. *)
Inductive constructed : Relation -> Prop :=
| constructed_base c lib r :
    Relation_init c lib = Some r -> constructed r
| constructed_independent c g lib r :
    RelationIndependent_init c g lib = Some r -> constructed r
| constructed_attach c ix lib r :
    RelationAttach_init c ix lib = Some r -> constructed r
| constructed_along c ix subix e lib r :
    RelationAttachAlong_init c ix subix e lib = Some r -> constructed r.

(** A token: its relation and, when set, the attribute [eval_spot_token]. *)
Record RelationToken : Type := {
  rel : Relation;
  eval_spot_token : option tfloat
}.

(** Keyword arguments: a dict from names to values. *)
Definition kwargs := list (String.string * tfloat).

Fixpoint kwargs_get (k : String.string) (kw : kwargs) : option tfloat :=
  match kw with
  | [] => None
  | (k', v) :: r => if String.eqb k k' then Some v else kwargs_get k r
  end.

(** [set(kwargs.keys()) == {name}] *)
Definition keys_are (name : String.string) (kw : kwargs) : bool :=
  match kw with
  | [] => false
  | _ => forallb (fun p => String.eqb (fst p) name) kw
  end.

Definition RelationToken_init (r : Relation) (kw : kwargs) : option RelationToken :=
  if str_in (category r) ["unihist"; "start"; "end"]%string then
    match kw with
    | [] => Some {| rel := r; eval_spot_token := None |}
    | _ => None
    end
  else
    if keys_are "eval_spot_token"%string kw
    then Some {| rel := r; eval_spot_token := kwargs_get "eval_spot_token"%string kw |}
    else None.

(** [RelationToken.get_attach_point(prev_parts)] *)
Definition get_attach_point (tok : RelationToken) (prev_parts : list PartToken)
  : option tensor :=
  let r := rel tok in
  if String.eqb (category r) "unihist"%string then
    option_map T1 (gpos r)
  else
    match attach_ix r with
    | None => None
    | Some ix =>
        match py_index prev_parts ix with
        | None => None
        | Some prev =>
            if String.eqb (category r) "start"%string then
              match py_index (motor prev) 0 with
              | Some subtraj => option_map T1 (py_index subtraj 0)
              | None => None
              end
            else if String.eqb (category r) "end"%string then
              match py_index (motor prev) (-1) with
              | Some subtraj => option_map T1 (py_index subtraj (-1))
              | None => None
              end
            else
              if String.eqb (category r) "mid"%string then
                match attach_subix r, eval_spot_token tok with
                | Some subix, Some spot =>
                    match slice_last (motor_spline prev) subix with
                    | Some bspline =>
                        match bspline_eval (Scalar spot) bspline with
                        | Some (loc, _) => Some (squeeze0 loc)
                        | None => None
                        end
                    | None => None
                    end
                | _, _ => None
                end
              else None
        end
    end.

Section EvalSpot.

(** The numeric primitives of torch that the eval-spot code calls.  For a
    Normal with finite parameters, the log-density and the distribution
    function at a finite point are finite floats, and so is the logarithm of
    a positive float: [ln], [log_density] and [distribution] give these
    values.  A draw consumes the state of the global random generator. *)
Variable ln : Q -> Q.
Variable log_density : Normal -> Q -> Q.
Variable distribution : Normal -> Q -> Q.
Variable rng : Type.
Variable normal_sample : Normal -> rng -> Q * rng.

(** [torch.log] *)
Definition torch_log (x : tfloat) : tfloat :=
  match x with
  | Fin q =>
      if Qeq_bool q 0 then NInf
      else if Qlt_bool q 0 then NaN
      else Fin (ln q)
  | PInf => PInf
  | NInf | NaN => NaN
  end.

(** [Normal.log_prob] and [Normal.cdf] *)
Definition log_prob (d : Normal) (x : tfloat) : tfloat :=
  match x with
  | Fin q => Fin (log_density d q)
  | PInf | NInf => NInf
  | NaN => NaN
  end.

Definition cdf (d : Normal) (x : tfloat) : tfloat :=
  match x with
  | Fin q => Fin (distribution d q)
  | PInf => Fin 1
  | NInf => Fin 0
  | NaN => NaN
  end.

(** [x == -float('inf')] *)
Definition is_neg_inf (x : tfloat) : bool :=
  match x with NInf => true | _ => false end.

(** [RelationAttachAlong.score_eval_spot_token], on the two attributes of
    [self] that it reads. *)
Definition score_eval_spot_token (ncpt : Z) (d : Normal) (spot : tfloat)
  : option tfloat :=
  match bspline_gen_s ncpt 1 with
  | Some (_, lb, ub) =>
      if tlt spot lb || tgt spot ub then Some NInf
      else
        let ll := log_prob d spot in
        (* correction for bounds *)
        let p_within := tsub (cdf d ub) (cdf d lb) in
        let ll := tsub ll (torch_log p_within) in
        Some ll
  | None => None
  end.

(** [RelationAttachAlong.sample_eval_spot_token]: the rejection loop, run
    for at most [fuel] draws.  [None] when the draws run out. *)
Fixpoint sample_eval_spot_token (fuel : nat) (ncpt : Z) (d : Normal) (g : rng)
  : option (tfloat * rng) :=
  match fuel with
  | O => None
  | S fuel' =>
      let (x, g') := normal_sample d g in
      match score_eval_spot_token ncpt d (Fin x) with
      | Some ll =>
          if is_neg_inf ll then sample_eval_spot_token fuel' ncpt d g'
          else Some (Fin x, g')
      | None => None
      end
  end.

(** [score_token], dispatched on the class of [self]. *)
Definition score_token (r : Relation) (tok : RelationToken) : option tfloat :=
  match r with
  | IsRelationAttachAlong _ _ _ _ ncpt d =>
      match eval_spot_token tok with
      | Some spot => score_eval_spot_token ncpt d spot
      | None => None
      end
  | _ => Some (Fin 0)
  end.

(** [sample_token], dispatched on the class of [self]. *)
Definition sample_token (fuel : nat) (r : Relation) (g : rng)
  : option (RelationToken * rng) :=
  match r with
  | IsRelationAttachAlong _ _ _ _ ncpt d =>
      match sample_eval_spot_token fuel ncpt d g with
      | Some (spot, g') =>
          match RelationToken_init r [("eval_spot_token"%string, spot)] with
          | Some token => Some (token, g')
          | None => None
          end
      | None => None
      end
  | _ =>
      match RelationToken_init r [] with
      | Some rtoken => Some (rtoken, g)
      | None => None
      end
  end.

(** The probability mass that the Normal places inside [[lb, ub]]. *)
Definition mass_within (ncpt : Z) (d : Normal) : Q :=
  distribution d (inject_Z (ncpt + 1)) + - distribution d (inject_Z 2).

(** The [n]-th value that the generator yields from the state [g]. *)
Fixpoint draw_at (d : Normal) (n : nat) (g : rng) : Q :=
  match n with
  | O => fst (normal_sample d g)
  | S m => draw_at d m (snd (normal_sample d g))
  end.

(** The state of the generator after [n] draws from the state [g]. *)
Fixpoint rng_after (d : Normal) (n : nat) (g : rng) : rng :=
  match n with
  | O => g
  | S m => rng_after d m (snd (normal_sample d g))
  end.

End EvalSpot.

(** ** splines.py: fitting *)

Section SplineFitting.

(** [pybpl/util/general.py] is not part of the sources at hand: the solver
    [least_squares(a, b)], of which the code keeps the solution and the
    residuals, is a parameter.  [None] is an exception of the solver. *)
Variable least_squares : matrix -> matrix -> option (matrix * vector).

(** [X.shape == (neval, 2)] *)
Definition has_shape (X : matrix) (rows cols : nat) : bool :=
  Nat.eqb (length X) rows && forallb (fun row => Nat.eqb (length row) cols) X.

(** [bspline_fit(s, X, nland, include_resid)]: the control points and, when
    asked for, the residuals.  A negative [nland] is an exception of
    [repeat] and [arange]. *)
Definition bspline_fit (s : vector) (X : matrix) (nland : Z) (include_resid : bool)
  : option (matrix * option vector) :=
  let neval := length s in
  if has_shape X neval 2 then
    if (nland <? 0)%Z then None
    else
      let nland := Z.to_nat nland in
      let S := map (fun x => repeat x nland) s in
      let I := repeat (arange nland) neval in
      match vectorized_bspline_coeff I S with
      | Some A =>
          let Cof := normalize_rows A in
          match least_squares Cof X with
          | Some (Y, residuals) =>
              if include_resid then Some (Y, Some residuals)
              else Some (Y, None)
          | None => None
          end
      | None => None
      end
  else None.

(** [fit_bspline_to_traj(X, nland, include_resid)] *)
Definition fit_bspline_to_traj (X : matrix) (nland : Z) (include_resid : bool)
  : option (matrix * option vector) :=
  if forallb (fun row => Nat.eqb (length row) 2) X then
    match bspline_gen_s nland (Z.of_nat (length X)) with
    | Some (s, _, _) =>
        if include_resid then bspline_fit s X nland true
        else bspline_fit s X nland false
    | None => None
    end
  else None.

End SplineFitting.

(** ** relation.py: locations *)

Definition loc_dist (r : Relation) : MultivariateNormal :=
  match r with
  | IsRelation _ ld | IsRelationIndependent _ ld _
  | IsRelationAttach _ ld _ | IsRelationAttachAlong _ ld _ _ _ _ => ld
  end.


Section Location.

(** [MultivariateNormal.sample] draws from the global generator;
    [MultivariateNormal.log_prob] is [None] when it rejects its argument. *)
Variable rng : Type.
Variable mvn_sample : MultivariateNormal -> rng -> vector * rng.
Variable mvn_log_prob : MultivariateNormal -> vector -> option tfloat.




End Location.

(** * Vocabulary of the statements *)

(** ** The uniform cubic B-spline basis, as the specification words it

    The four polynomial pieces in the local offset [t], and the basis function
    of [d = s - i]: the piece of the sub-range that holds [d], scaled by 1/6,
    and zero outside [[0,4)]. *)

Definition bspline_piece (k : nat) (t : Q) : Q :=
  match k with
  | 0%nat => t ^ 3
  | 1%nat => -3 * t ^ 3 + 3 * t ^ 2 + 3 * t + 1
  | 2%nat => 3 * t ^ 3 - 6 * t ^ 2 + 4
  | _ => (1 - t) ^ 3
  end.

Definition cubic_basis (d : Q) : Q :=
  if Qle_bool 0 d && Qlt_bool d 1 then bspline_piece 0 d / 6
  else if Qle_bool 1 d && Qlt_bool d 2 then bspline_piece 1 (d - 1) / 6
  else if Qle_bool 2 d && Qlt_bool d 3 then bspline_piece 2 (d - 2) / 6
  else if Qle_bool 3 d && Qlt_bool d 4 then bspline_piece 3 (d - 3) / 6
  else 0.

(** [a <= d < b] on floats. *)
Definition in_range (d : tfloat) (a b : Q) : bool :=
  tle (Fin a) d && tlt d (Fin b).

(** What the Basis Coefficient Engine promises of the entry [x] computed for
    the index [i] and the parameter [s]. *)
Definition basis_entry_spec (i s x : tfloat) : Prop :=
  let d := tsub s i in
  (in_range d 0 4 = false -> x = Fin 0) /\
  (forall k : nat, (k < 4)%nat ->
     in_range d (inject_Z (Z.of_nat k)) (inject_Z (Z.of_nat k) + 1) = true ->
     exists t : Q,
       tsub d (tZ (Z.of_nat k)) = Fin t /\ teq x (Fin (bspline_piece k t / 6))).


Definition param_entries (s : param) : vector :=
  match s with Scalar x => [x] | Vec v => v end.

Definition two_columns (Y : matrix) : bool :=
  forallb (fun row => Nat.eqb (length row) 2) Y.

(** The row of raw basis weights that [bspline_eval] computes for the
    parameter [x] and [nland] landmarks. *)
Definition raw_row (nland : nat) (x : tfloat) : vector :=
  map (fun i => bspline_coeff_entry i x) (arange nland).

Definition normalize_row (row : vector) : vector :=
  map (fun a => tdiv a (tsum row)) row.




Definition fin_part (x : tfloat) : Q :=
  match x with Fin q => q | _ => 0 end.











(** * Concrete instances *)

(** A concrete instance of the numeric primitives, with rational values, used
    to run the definitions on examples: a sigmoid for the distribution
    function, a parabola for the log-density, and draws that count up from
    zero by halves. *)
Module Sample.

Definition ln (q : Q) : Q := q - 1.

Definition log_density (d : Normal) (x : Q) : Q :=
  - ((x - loc d) * (x - loc d)) / (2 * scale d * scale d).

Definition distribution (d : Normal) (x : Q) : Q :=
  let z := (x - loc d) / scale d in
  (1 # 2) + z / (2 * (1 + Qabs z)).

Definition rng := nat.

Definition normal_sample (d : Normal) (g : rng) : Q * rng :=
  (inject_Z (Z.of_nat g) / 2, S g).

Definition lib : Library :=
  {| rel_sigma_x := Fin 1; rel_sigma_y := Fin 1;
     lib_ncpt := 5; tokenvar_sigma_attach := 1 # 2 |}.

End Sample.

(** A rational stand-in for the helper of [util/stroke.py]: the length of a
    trajectory in the taxicab metric, and a spline to measure. *)
Module SampleStroke.

Definition tabs (x : tfloat) : tfloat :=
  match x with
  | Fin q => Fin (Qabs q)
  | NaN => NaN
  | PInf | NInf => PInf
  end.

Definition step_length (p q : vector) : tfloat :=
  tsum (map2 (fun a b => tabs (tsub b a)) p q).

Fixpoint dist_along_traj (stk : matrix) : tfloat :=
  match stk with
  | p :: (q :: _) as rest => tadd (step_length p q) (dist_along_traj rest)
  | _ => Fin 0
  end.

Definition Y : matrix := [[Fin 0; Fin 0]; [Fin 6; Fin 12]; [Fin 18; Fin 6]].

Definition stk : matrix :=
  Eval vm_compute in
    match reference_stroke 3 Y with Some m => m | None => [] end.

Definition d : Q :=
  Eval vm_compute in fin_part (tdiv (dist_along_traj stk) (Fin (3 # 2))).

End SampleStroke.

(** A previous part with two sub-trajectories and five control points per
    sub-curve, and one relation of each class. *)
Module SampleParts.

Definition part : PartToken :=
  {| motor := [ [[Fin 1; Fin 1]; [Fin 2; Fin 3]];
                [[Fin 2; Fin 3]; [Fin 4; Fin 5]; [Fin 6; Fin 5]] ];
     motor_spline :=
       [ [[Fin 0; Fin 2]; [Fin 0; Fin 3]];
         [[Fin 1; Fin 3]; [Fin 2; Fin 4]];
         [[Fin 2; Fin 4]; [Fin 2; Fin 5]];
         [[Fin 3; Fin 5]; [Fin 1; Fin 5]];
         [[Fin 4; Fin 6]; [Fin 0; Fin 4]] ] |}.

Definition independent : Relation :=
  IsRelationIndependent "unihist"%string (make_loc_dist Sample.lib) [Fin 3; Fin 4].

Definition at_start : Relation :=
  IsRelationAttach "start"%string (make_loc_dist Sample.lib) 0.

Definition at_end : Relation :=
  IsRelationAttach "end"%string (make_loc_dist Sample.lib) (-1).

Definition along : Relation :=
  IsRelationAttachAlong "mid"%string (make_loc_dist Sample.lib) 0 1 5
    {| loc := 3; scale := 1 # 2 |}.

Definition plain (r : Relation) : RelationToken :=
  {| rel := r; eval_spot_token := None |}.

Definition spotted : RelationToken :=
  {| rel := along; eval_spot_token := Some (Fin 3) |}.

Definition curve : matrix :=
  [[Fin 2; Fin 3]; [Fin 3; Fin 4]; [Fin 4; Fin 5]; [Fin 5; Fin 5]; [Fin 6; Fin 4]].

End SampleParts.

(** A stand-in for the offset distribution (draws that step by quarters, a
    quadratic log-density) and for the solver (one that answers the control
    points [SampleParts.curve] to every system). *)
Module SampleLocation.



Definition least_squares (a b : matrix) : option (matrix * vector) :=
  Some (SampleParts.curve, [Fin 0; Fin 0]).

Definition X : matrix := [[Fin 2; Fin 3]; [Fin 4; Fin 5]; [Fin 6; Fin 4]].

End SampleLocation.

(** A second spline, twice as large as [SampleStroke.Y]. *)
Module SampleStroke2.

Definition Y : matrix := [[Fin 0; Fin 0]; [Fin 12; Fin 24]; [Fin 36; Fin 12]].

Definition stk : matrix :=
  Eval vm_compute in
    match reference_stroke 3 Y with Some m => m | None => [] end.

Definition d : Q :=
  Eval vm_compute in
    fin_part (tdiv (SampleStroke.dist_along_traj stk) (Fin (3 # 2))).

End SampleStroke2.

(** * Properties *)

(** ** Comparisons on rationals *)

Lemma Qlt_bool_iff (a b : Q) : Qlt_bool a b = true <-> a < b.
Proof.
  unfold Qlt_bool. rewrite negb_true_iff. split; intro H.
  - apply Qnot_le_lt. intro H1. apply Qle_bool_iff in H1. congruence.
  - destruct (Qle_bool b a) eqn:E; auto. apply Qle_bool_iff in E. lra.
Qed.

Lemma Qlt_bool_false (a b : Q) : Qlt_bool a b = false <-> b <= a.
Proof.
  unfold Qlt_bool. rewrite negb_false_iff. apply Qle_bool_iff.
Qed.

Lemma Qle_bool_false (a b : Q) : Qle_bool a b = false <-> b < a.
Proof.
  rewrite <- Qlt_bool_iff. unfold Qlt_bool.
  destruct (Qle_bool a b); simpl; split; congruence.
Qed.

Lemma Qeq_bool_false (a b : Q) : Qeq_bool a b = false <-> ~ a == b.
Proof.
  split; intro H.
  - intro E. apply Qeq_bool_iff in E. congruence.
  - destruct (Qeq_bool a b) eqn:E; auto. apply Qeq_bool_iff in E. contradiction.
Qed.

(** Turns the boolean tests of the context into (in)equalities of [Q]. *)
Ltac qtests :=
  repeat match goal with
  | H : _ && _ = true |- _ => apply andb_true_iff in H; destruct H
  | H : _ && _ = false |- _ => apply andb_false_iff in H; destruct H
  | H : _ || _ = false |- _ => apply orb_false_iff in H; destruct H
  | H : _ || _ = true |- _ => apply orb_true_iff in H; destruct H
  | H : Qle_bool _ _ = true |- _ => apply Qle_bool_iff in H
  | H : Qle_bool _ _ = false |- _ => apply Qle_bool_false in H
  | H : Qlt_bool _ _ = true |- _ => apply Qlt_bool_iff in H
  | H : Qlt_bool _ _ = false |- _ => apply Qlt_bool_false in H
  | H : Qeq_bool _ _ = true |- _ => apply Qeq_bool_iff in H
  | H : Qeq_bool _ _ = false |- _ => apply Qeq_bool_false in H
  end.

Lemma teq_refl (x : tfloat) : teq x x.
Proof. destruct x; simpl; auto. reflexivity. Qed.

Lemma teq_sym (x y : tfloat) : teq x y -> teq y x.
Proof. destruct x, y; simpl; auto. intro H. symmetry. exact H. Qed.

Lemma teq_trans (x y z : tfloat) : teq x y -> teq y z -> teq x z.
Proof.
  destruct x, y, z; simpl; auto; try contradiction.
  intros H1 H2. rewrite H1. exact H2.
Qed.

Lemma Qle_bool_ext (a b c d : Q) : (a <= b <-> c <= d) -> Qle_bool a b = Qle_bool c d.
Proof.
  intro H. destruct (Qle_bool a b) eqn:E1, (Qle_bool c d) eqn:E2; auto; qtests; lra.
Qed.

Lemma Qlt_bool_ext (a b c d : Q) : (a < b <-> c < d) -> Qlt_bool a b = Qlt_bool c d.
Proof.
  intro H. destruct (Qlt_bool a b) eqn:E1, (Qlt_bool c d) eqn:E2; auto; qtests; lra.
Qed.

Lemma Qle_bool_shift (i s k : Q) : Qle_bool (i + k) s = Qle_bool k (s - i).
Proof. apply Qle_bool_ext. lra. Qed.

Lemma Qle_bool_shift0 (i s : Q) : Qle_bool i s = Qle_bool 0 (s - i).
Proof. apply Qle_bool_ext. lra. Qed.

Lemma Qlt_bool_shift (i s k : Q) : Qlt_bool s (i + k) = Qlt_bool (s - i) k.
Proof. apply Qlt_bool_ext. lra. Qed.

(** ** The Basis Coefficient Engine *)

(** On finite arguments the entry is the basis function of [s - i]. *)
Lemma bspline_coeff_entry_fin (i s : Q) :
  exists q, bspline_coeff_entry (Fin i) (Fin s) = Fin q /\ q == cubic_basis (s - i).
Proof.
  unfold bspline_coeff_entry, cubic_basis, bspline_piece, tge, tle, tlt, tadd, tsub, tneg.
  cbn. rewrite (Qle_bool_shift0 i s), !(Qle_bool_shift i s), !(Qlt_bool_shift i s).
  destruct (Qle_bool 0 (s - i) && Qlt_bool (s - i) 1) eqn:F1;
  destruct (Qle_bool 1 (s - i) && Qlt_bool (s - i) 2) eqn:F2;
  destruct (Qle_bool 2 (s - i) && Qlt_bool (s - i) 3) eqn:F3;
  destruct (Qle_bool 3 (s - i) && Qlt_bool (s - i) 4) eqn:F4;
  eexists; (split; [reflexivity|]);
  try (exfalso; qtests; lra);
  try reflexivity; field.
Qed.

(** Outside [[0,4)] no mask selects the entry: it keeps the zero it started with. *)
Lemma bspline_coeff_entry_fin_outside (i s : Q) :
  Qle_bool 0 (s - i) && Qlt_bool (s - i) 4 = false ->
  bspline_coeff_entry (Fin i) (Fin s) = Fin 0.
Proof.
  intro H.
  unfold bspline_coeff_entry, tge, tle, tlt, tadd, tsub, tneg.
  cbn. rewrite (Qle_bool_shift0 i s), !(Qle_bool_shift i s), !(Qlt_bool_shift i s).
  destruct (Qle_bool 0 (s - i) && Qlt_bool (s - i) 1) eqn:F1;
  destruct (Qle_bool 1 (s - i) && Qlt_bool (s - i) 2) eqn:F2;
  destruct (Qle_bool 2 (s - i) && Qlt_bool (s - i) 3) eqn:F3;
  destruct (Qle_bool 3 (s - i) && Qlt_bool (s - i) 4) eqn:F4;
  try reflexivity; exfalso; qtests; lra.
Qed.

Lemma cubic_basis_piece (k : nat) (d : Q) :
  (k < 4)%nat ->
  inject_Z (Z.of_nat k) <= d < inject_Z (Z.of_nat k) + 1 ->
  cubic_basis d == bspline_piece k (d - inject_Z (Z.of_nat k)) / 6.
Proof.
  intros Hk H.
  destruct k as [|[|[|[|k]]]]; try lia; cbn in *; unfold inject_Z in *;
  unfold cubic_basis;
  destruct (Qle_bool 0 d && Qlt_bool d 1) eqn:F1;
  destruct (Qle_bool 1 d && Qlt_bool d 2) eqn:F2;
  destruct (Qle_bool 2 d && Qlt_bool d 3) eqn:F3;
  destruct (Qle_bool 3 d && Qlt_bool d 4) eqn:F4;
  try (exfalso; qtests; lra);
  unfold bspline_piece; field.
Qed.

Lemma in_range_fin (d a b : Q) :
  in_range (Fin d) a b = true <-> a <= d < b.
Proof.
  unfold in_range, tle, tlt. rewrite andb_true_iff, Qle_bool_iff, Qlt_bool_iff.
  tauto.
Qed.

(** A range test only succeeds on a finite difference, that is on finite
    arguments. *)
Lemma in_range_tsub_fin (i s : tfloat) (a b : Q) :
  in_range (tsub s i) a b = true -> exists qi qs, i = Fin qi /\ s = Fin qs.
Proof.
  destruct i, s; cbn; intro H; try discriminate;
    try (rewrite andb_false_r in H; discriminate).
  eauto.
Qed.

Lemma bspline_coeff_entry_spec (i s : tfloat) :
  basis_entry_spec i s (bspline_coeff_entry i s).
Proof.
  unfold basis_entry_spec. split.
  - destruct i as [qi| | |], s as [qs| | |]; try reflexivity.
    intro H. apply bspline_coeff_entry_fin_outside.
    unfold in_range, tsub, tneg, tadd, tle, tlt in H.
    rewrite <- H. f_equal.
  - intros k Hk H.
    destruct (in_range_tsub_fin _ _ _ _ H) as (qi & qs & -> & ->).
    cbn [tsub tneg tadd tZ] in *.
    apply in_range_fin in H.
    exists (qs + - qi + - inject_Z (Z.of_nat k)). split; [reflexivity|].
    destruct (bspline_coeff_entry_fin qi qs) as (q & -> & Hq).
    cbn. rewrite Hq.
    exact (cubic_basis_piece k (qs + - qi) Hk H).
Qed.

(** ** Lists and shapes *)



Lemma shape_eqb_cons (a b : list tfloat) (m n : matrix) :
  shape_eqb (a :: m) (b :: n) = Nat.eqb (length a) (length b) && shape_eqb m n.
Proof.
  unfold shape_eqb. simpl.
  destruct (Nat.eqb (length m) (length n)), (Nat.eqb (length a) (length b)); reflexivity.
Qed.





(** ** Parameter vectors *)






(** ** The Spline Evaluator *)

Lemma map2_repeat_r {A B C : Type} (f : A -> B -> C) (l : list A) (x : B) :
  map2 f l (repeat x (length l)) = map (fun a => f a x) l.
Proof.
  unfold map2. induction l as [|a l IH]; simpl; [reflexivity|].
  f_equal. exact IH.
Qed.

Lemma map2_repeat_l {A B C : Type} (g : A -> B -> C) (row : A) (l : list B) :
  map2 g (repeat row (length l)) l = map (g row) l.
Proof.
  unfold map2. induction l as [|a l IH]; simpl; [reflexivity|].
  f_equal. exact IH.
Qed.

Lemma shape_eqb_grid (nland : nat) (s : vector) :
  shape_eqb (repeat (arange nland) (length s)) (map (fun x => repeat x nland) s) = true.
Proof.
  induction s as [|x s IH]; [reflexivity|].
  simpl repeat. simpl map. rewrite shape_eqb_cons, IH, andb_true_r.
  apply Nat.eqb_eq. unfold arange. rewrite length_map, length_seq, repeat_length.
  reflexivity.
Qed.

Lemma arange_length (n : nat) : length (arange n) = n.
Proof. unfold arange. rewrite length_map, length_seq. reflexivity. Qed.

(** The coefficient grid of [bspline_eval], row by row. *)
Lemma coeff_grid (nland : nat) (s : vector) :
  vectorized_bspline_coeff (repeat (arange nland) (length s))
    (map (fun x => repeat x nland) s) = Some (map (raw_row nland) s).
Proof.
  unfold vectorized_bspline_coeff. rewrite shape_eqb_grid. f_equal.
  rewrite <- (length_map (fun x => repeat x nland) s).
  rewrite map2_repeat_l, map_map.
  apply map_ext. intro x. unfold raw_row.
  rewrite <- (arange_length nland) at 2. apply map2_repeat_r.
Qed.

Lemma bspline_eval_rows (s : param) (Y : matrix) :
  two_columns Y = true ->
  bspline_eval s Y =
  Some (matmul (map (fun x => normalize_row (raw_row (length Y) x)) (param_entries s)) Y 2,
        map (fun x => normalize_row (raw_row (length Y) x)) (param_entries s)).
Proof.
  intro H. unfold bspline_eval. fold (two_columns Y). rewrite H.
  fold (param_entries s). rewrite coeff_grid.
  unfold normalize_rows. rewrite map_map. reflexivity.
Qed.

Lemma map_const {A B : Type} (g : A -> B) (c : B) (l : list A) :
  (forall a, In a l -> g a = c) -> map g l = repeat c (length l).
Proof.
  induction l as [|a l IH]; intro H; simpl; [reflexivity|].
  rewrite (H a) by (left; reflexivity). f_equal.
  apply IH. intros b Hb. apply H. right. exact Hb.
Qed.

Lemma In_arange (n : nat) (i : tfloat) :
  In i (arange n) <-> exists j : nat, (j < n)%nat /\ i = tZ (Z.of_nat j).
Proof.
  unfold arange. rewrite in_map_iff. split.
  - intros (j & <- & Hj). apply in_seq in Hj. exists j. split; [lia|reflexivity].
  - intros (j & Hj & ->). exists j. split; [reflexivity|]. apply in_seq. lia.
Qed.

(** Below 0 and from [nland + 3] on, no basis function is supported. *)
Lemma raw_row_outside (n : nat) (x : tfloat) :
  in_range x 0 (inject_Z (Z.of_nat n) + 3) = false ->
  raw_row n x = repeat (Fin 0) n.
Proof.
  intro H. unfold raw_row. rewrite <- (arange_length n) at 2.
  apply map_const. intros i Hi.
  apply In_arange in Hi. destruct Hi as (j & Hj & ->).
  apply (proj1 (bspline_coeff_entry_spec (tZ (Z.of_nat j)) x)).
  destruct x as [q| | |]; try reflexivity.
  unfold in_range, tsub, tneg, tadd, tZ, tle, tlt in *.
  assert (Hjn : inject_Z (Z.of_nat j + 1) <= inject_Z (Z.of_nat n)).
  { rewrite <- Zle_Qle. lia. }
  rewrite inject_Z_plus in Hjn. change (inject_Z 1) with 1 in Hjn.
  assert (H0 : 0 <= inject_Z (Z.of_nat j)).
  { change 0 with (inject_Z 0). rewrite <- Zle_Qle. lia. }
  apply andb_false_iff. qtests.
  - left. apply Qle_bool_false. lra.
  - right. apply Qlt_bool_false. lra.
Qed.

Lemma tsum_zeros (n : nat) :
  exists q : Q, tsum (repeat (Fin 0) n) = Fin q /\ q == 0.
Proof.
  induction n as [|n (q & Hq & E)].
  - exists 0. split; reflexivity.
  - change (tsum (repeat (Fin 0) (S n)))
      with (tadd (Fin 0) (tsum (repeat (Fin 0) n))).
    rewrite Hq. exists (0 + q). split; [reflexivity|lra].
Qed.

Lemma normalize_row_zeros (n : nat) :
  normalize_row (repeat (Fin 0) n) = repeat NaN n.
Proof.
  unfold normalize_row. destruct (tsum_zeros n) as (q & -> & E).
  rewrite map_repeat. f_equal.
  unfold tdiv. apply Qeq_bool_iff in E. rewrite E. reflexivity.
Qed.

Lemma tsum_nan (l : vector) : (forall x, In x l -> x = NaN) -> l <> [] -> tsum l = NaN.
Proof.
  destruct l as [|a l]; intros H Hne; [contradiction|].
  simpl. rewrite (H a) by (left; reflexivity). reflexivity.
Qed.

Lemma column_length (k : nat) (Y : matrix) : length (column k Y) = length Y.
Proof. unfold column. apply length_map. Qed.

(** A row of NaN weights times a matrix with at least one row. *)
Lemma nan_row_times (Y : matrix) (k : nat) :
  Y <> [] ->
  tsum (map2 tmul (repeat NaN (length Y)) (column k Y)) = NaN.
Proof.
  intro H. apply tsum_nan.
  - intros x Hx. unfold map2 in Hx. apply in_map_iff in Hx.
    destruct Hx as ((a & b) & <- & Hab). apply in_combine_l in Hab.
    apply repeat_spec in Hab. simpl. rewrite Hab. reflexivity.
  - destruct Y as [|row Y]; [contradiction|]. discriminate.
Qed.

(** C9. A parameter outside [[0, nland + 3)] selects no basis function: its
    row of raw coefficients is all zeros, the row sum is zero, the division of
    the row by its sum gives NaN weights, and [bspline_eval] returns (it does
    not fail) a trajectory whose row for that parameter holds NaN. *)
Theorem bspline_eval_outside_support (s : param) (Y : matrix) (r : nat) (x : tfloat) :
  Y <> [] ->
  two_columns Y = true ->
  nth_error (param_entries s) r = Some x ->
  in_range x 0 (inject_Z (Z.of_nat (length Y)) + 3) = false ->
  raw_row (length Y) x = repeat (Fin 0) (length Y) /\
  teq (tsum (raw_row (length Y) x)) (Fin 0) /\
  exists X Cof : matrix,
    bspline_eval s Y = Some (X, Cof) /\
    nth_error Cof r = Some (repeat NaN (length Y)) /\
    nth_error X r = Some [NaN; NaN].
Proof.
  intros Hne HY Hr Hx.
  pose proof (raw_row_outside _ _ Hx) as Hraw.
  split; [exact Hraw|]. split.
  { rewrite Hraw. destruct (tsum_zeros (length Y)) as (q & -> & E). exact E. }
  rewrite (bspline_eval_rows s Y HY).
  do 2 eexists. split; [reflexivity|].
  assert (Hc : nth_error (map (fun x0 => normalize_row (raw_row (length Y) x0))
                            (param_entries s)) r = Some (repeat NaN (length Y))).
  { rewrite nth_error_map, Hr. simpl. rewrite Hraw, normalize_row_zeros. reflexivity. }
  split; [exact Hc|].
  unfold matmul. rewrite (map_nth_error _ _ _ Hc). simpl.
  rewrite !nan_row_times by exact Hne. reflexivity.
Qed.

Lemma bspline_eval_outside_support_witness :
  [[Fin 0; Fin 0]; [Fin 1; Fin 2]] <> [] /\
  two_columns [[Fin 0; Fin 0]; [Fin 1; Fin 2]] = true /\
  nth_error (param_entries (Scalar (Fin (-1)))) 0 = Some (Fin (-1)) /\
  in_range (Fin (-1)) 0 (inject_Z (Z.of_nat 2) + 3) = false /\
  raw_row 2 (Fin (-1)) = repeat (Fin 0) 2 /\
  teq (tsum (raw_row 2 (Fin (-1)))) (Fin 0) /\
  exists X Cof : matrix,
    bspline_eval (Scalar (Fin (-1))) [[Fin 0; Fin 0]; [Fin 1; Fin 2]] = Some (X, Cof) /\
    nth_error Cof 0 = Some (repeat NaN 2) /\
    nth_error X 0 = Some [NaN; NaN].
Proof.
  split; [discriminate|]. split; [reflexivity|]. split; [reflexivity|].
  split; [reflexivity|].
  apply (bspline_eval_outside_support (Scalar (Fin (-1)))
           [[Fin 0; Fin 0]; [Fin 1; Fin 2]] 0 (Fin (-1)));
    [discriminate | reflexivity | reflexivity | reflexivity].
Defined.

(** ** Partition of unity *)



























(** ** Adaptive sample counts *)

Lemma bspline_gen_s_length (nland k : Z) :
  (0 <= k)%Z ->
  exists s : vector,
    bspline_gen_s nland k = Some (s, tZ 2, tZ (nland + 1)) /\
    length s = Z.to_nat k.
Proof.
  intro H. unfold bspline_gen_s, linspace.
  destruct (Z.eqb_spec k 1) as [->|Hk1].
  - eexists. split; reflexivity.
  - destruct (Z.ltb_spec k 0); try lia.
    eexists. split; [reflexivity|]. rewrite length_map, length_seq. reflexivity.
Qed.


Lemma bspline_eval_length (s : vector) (Y X Cof : matrix) :
  bspline_eval (Vec s) Y = Some (X, Cof) -> length X = length s.
Proof.
  intro H. assert (HY : two_columns Y = true).
  { unfold bspline_eval in H. fold (two_columns Y) in H.
    destruct (two_columns Y); [reflexivity|discriminate]. }
  rewrite (bspline_eval_rows _ _ HY) in H. inversion H.
  unfold matmul. rewrite !length_map. reflexivity.
Qed.

Section AdaptiveSampling.

Variables spline_min_neval spline_max_neval : Z.
Variable spline_grain : tfloat.
Variable dist_along_traj : matrix -> tfloat.

(** The reference trajectory exists for every well-shaped spline. *)
Lemma reference_stroke_defined (Y : matrix) :
  two_columns Y = true -> (0 <= spline_min_neval)%Z ->
  exists stk, reference_stroke spline_min_neval Y = Some stk /\
              length stk = Z.to_nat spline_min_neval.
Proof.
  intros HY Hmin. unfold reference_stroke.
  destruct (bspline_gen_s_length (Z.of_nat (length Y)) _ Hmin) as (s & -> & Hs).
  rewrite (bspline_eval_rows _ _ HY). simpl.
  eexists. split; [reflexivity|].
  unfold matmul. rewrite !length_map. exact Hs.
Qed.


End AdaptiveSampling.


(** ** Attach points *)

Lemma py_index_first {A : Type} (x : A) (l : list A) : py_index (x :: l) 0 = Some x.
Proof.
  unfold py_index. simpl length.
  destruct (Z.leb_spec 0 0); try lia.
  destruct (Z.ltb_spec 0 (Z.of_nat (S (length l)))); try lia.
  reflexivity.
Qed.

Lemma py_index_last {A : Type} (l : list A) (x : A) : py_index (l ++ [x]) (-1) = Some x.
Proof.
  unfold py_index. rewrite length_app. simpl length.
  destruct (Z.leb_spec 0 (-1)); try lia. simpl andb.
  destruct (Z.leb_spec (- Z.of_nat (length l + 1)) (-1)); try lia. simpl.
  replace (Z.to_nat (Z.of_nat (length l + 1) + -1)) with (length l) by lia.
  rewrite nth_error_app2 by lia. rewrite Nat.sub_diag. reflexivity.
Qed.

(** C6. The simple categories: [unihist] returns the stored position whatever
    the previous parts are; [start] returns the first point of the first
    sub-trajectory of [prev_parts[attach_ix].motor]; [end] returns the last
    point of its last sub-trajectory. *)
Theorem get_attach_point_lookup :
  (forall (tok : RelationToken) (prev_parts : list PartToken) (g : vector),
     category (rel tok) = "unihist"%string ->
     gpos (rel tok) = Some g ->
     get_attach_point tok prev_parts = Some (T1 g)) /\
  (forall (tok : RelationToken) (prev_parts : list PartToken) (ix : Z)
          (prev : PartToken) (subtraj : matrix) (rest : list matrix)
          (pt : vector) (pts : matrix),
     category (rel tok) = "start"%string ->
     attach_ix (rel tok) = Some ix ->
     py_index prev_parts ix = Some prev ->
     motor prev = subtraj :: rest ->
     subtraj = pt :: pts ->
     get_attach_point tok prev_parts = Some (T1 pt)) /\
  (forall (tok : RelationToken) (prev_parts : list PartToken) (ix : Z)
          (prev : PartToken) (subtraj : matrix) (before : list matrix)
          (pt : vector) (pts : matrix),
     category (rel tok) = "end"%string ->
     attach_ix (rel tok) = Some ix ->
     py_index prev_parts ix = Some prev ->
     motor prev = before ++ [subtraj] ->
     subtraj = pts ++ [pt] ->
     get_attach_point tok prev_parts = Some (T1 pt)).
Proof.
  split; [|split].
  - intros tok prev_parts g Hc Hg. unfold get_attach_point.
    rewrite Hc, Hg. reflexivity.
  - intros tok prev_parts ix prev subtraj rest pt pts Hc Hix Hprev Hm Hs.
    unfold get_attach_point. rewrite Hc, Hix, Hprev, Hm. simpl String.eqb. cbv iota.
    rewrite py_index_first, Hs, py_index_first. reflexivity.
  - intros tok prev_parts ix prev subtraj before pt pts Hc Hix Hprev Hm Hs.
    unfold get_attach_point. rewrite Hc, Hix, Hprev, Hm. simpl String.eqb. cbv iota.
    rewrite py_index_last, Hs, py_index_last. reflexivity.
Qed.

(** C5. For a [mid] token, the attach point is the trajectory point that
    [bspline_eval] computes at the token's eval spot on the control points
    [prev_parts[attach_ix].motor_spline[:, :, attach_subix]], the [(1, 2)]
    result squeezed to shape [(2,)]. *)
Theorem get_attach_point_mid (tok : RelationToken) (prev_parts : list PartToken)
    (ix subix : Z) (spot : tfloat) (prev : PartToken) (bspline : matrix) :
  category (rel tok) = "mid"%string ->
  attach_ix (rel tok) = Some ix ->
  attach_subix (rel tok) = Some subix ->
  eval_spot_token tok = Some spot ->
  py_index prev_parts ix = Some prev ->
  slice_last (motor_spline prev) subix = Some bspline ->
  two_columns bspline = true ->
  exists (loc Cof : matrix) (x y : tfloat),
    bspline_eval (Scalar spot) bspline = Some (loc, Cof) /\
    loc = [[x; y]] /\
    get_attach_point tok prev_parts = Some (T1 [x; y]).
Proof.
  intros Hc Hix Hsub Hspot Hprev Hslice Hcols.
  unfold get_attach_point.
  rewrite Hc, Hix, Hsub, Hspot, Hprev, Hslice. simpl String.eqb. cbv iota.
  rewrite (bspline_eval_rows _ _ Hcols). simpl param_entries. simpl map.
  unfold matmul. simpl map.
  do 4 eexists. split; [reflexivity|]. split; reflexivity.
Qed.

Lemma get_attach_point_lookup_witness :
  get_attach_point (SampleParts.plain SampleParts.independent) []
    = Some (T1 [Fin 3; Fin 4]) /\
  get_attach_point (SampleParts.plain SampleParts.at_start) [SampleParts.part]
    = Some (T1 [Fin 1; Fin 1]) /\
  get_attach_point (SampleParts.plain SampleParts.at_end) [SampleParts.part]
    = Some (T1 [Fin 6; Fin 5]).
Proof.
  split; [|split].
  - apply (proj1 get_attach_point_lookup); reflexivity.
  - apply (proj1 (proj2 get_attach_point_lookup)
             (SampleParts.plain SampleParts.at_start) [SampleParts.part] 0%Z
             SampleParts.part [[Fin 1; Fin 1]; [Fin 2; Fin 3]]
             [[[Fin 2; Fin 3]; [Fin 4; Fin 5]; [Fin 6; Fin 5]]]
             [Fin 1; Fin 1] [[Fin 2; Fin 3]]); reflexivity.
  - apply (proj2 (proj2 get_attach_point_lookup)
             (SampleParts.plain SampleParts.at_end) [SampleParts.part] (-1)%Z
             SampleParts.part [[Fin 2; Fin 3]; [Fin 4; Fin 5]; [Fin 6; Fin 5]]
             [[[Fin 1; Fin 1]; [Fin 2; Fin 3]]]
             [Fin 6; Fin 5] [[Fin 2; Fin 3]; [Fin 4; Fin 5]]); reflexivity.
Defined.

Lemma get_attach_point_mid_witness :
  category (rel SampleParts.spotted) = "mid"%string /\
  attach_ix (rel SampleParts.spotted) = Some 0%Z /\
  attach_subix (rel SampleParts.spotted) = Some 1%Z /\
  eval_spot_token SampleParts.spotted = Some (Fin 3) /\
  py_index [SampleParts.part] 0 = Some SampleParts.part /\
  slice_last (motor_spline SampleParts.part) 1 = Some SampleParts.curve /\
  two_columns SampleParts.curve = true /\
  exists (loc Cof : matrix) (x y : tfloat),
    bspline_eval (Scalar (Fin 3)) SampleParts.curve = Some (loc, Cof) /\
    loc = [[x; y]] /\
    get_attach_point SampleParts.spotted [SampleParts.part] = Some (T1 [x; y]).
Proof.
  repeat (split; [reflexivity|]).
  apply (get_attach_point_mid SampleParts.spotted [SampleParts.part] 0%Z 1%Z (Fin 3)
           SampleParts.part SampleParts.curve); reflexivity.
Defined.

(** ** Scoring and sampling tokens *)

Lemma constructed_along_mid (r : Relation) :
  constructed r ->
  match r with
  | IsRelationAttachAlong c _ _ _ _ _ => c = "mid"%string
  | _ => True
  end.
Proof.
  intros [c lib r' H | c g lib r' H | c ix lib r' H | c ix subix e lib r' H].
  - unfold Relation_init in H. destruct (str_in c categories_allowed); inversion H; exact I.
  - unfold RelationIndependent_init in H.
    destruct (Relation_init c lib); [|discriminate].
    destruct (_ && _); inversion H; exact I.
  - unfold RelationAttach_init in H.
    destruct (Relation_init c lib); [|discriminate].
    destruct (str_in c _); inversion H; exact I.
  - unfold RelationAttachAlong_init in H.
    destruct (RelationAttach_init c ix lib); [|discriminate].
    destruct (String.eqb_spec c "mid"); inversion H. assumption.
Qed.

Section Scoring.

Variable ln : Q -> Q.
Variable log_density : Normal -> Q -> Q.
Variable distribution : Normal -> Q -> Q.

(** C10. A relation of category [unihist], [start] or [end] scores every
    token 0, whatever the token holds; only a [RelationAttachAlong] scores
    the eval spot of the token. *)
Theorem score_token_zero (r : Relation) (tok : RelationToken) :
  constructed r ->
  str_in (category r) ["unihist"; "start"; "end"]%string = true ->
  score_token ln log_density distribution r tok = Some (Fin 0) /\
  (forall c ld ix subix ncpt d spot,
     eval_spot_token tok = Some spot ->
     score_token ln log_density distribution
       (IsRelationAttachAlong c ld ix subix ncpt d) tok
     = score_eval_spot_token ln log_density distribution ncpt d spot).
Proof.
  intros Hr Hc. split.
  - pose proof (constructed_along_mid r Hr) as Hmid.
    destruct r as [c ld | c ld g | c ld ix | c ld ix subix ncpt d];
      try reflexivity.
    simpl in Hc, Hmid. subst c. discriminate.
  - intros c ld ix subix ncpt d spot Hspot. simpl. rewrite Hspot. reflexivity.
Qed.

End Scoring.

Lemma score_token_zero_witness :
  constructed SampleParts.at_end /\
  str_in (category SampleParts.at_end) ["unihist"; "start"; "end"]%string = true /\
  score_token Sample.ln Sample.log_density Sample.distribution
    SampleParts.at_end SampleParts.spotted = Some (Fin 0) /\
  (forall c ld ix subix ncpt d spot,
     eval_spot_token SampleParts.spotted = Some spot ->
     score_token Sample.ln Sample.log_density Sample.distribution
       (IsRelationAttachAlong c ld ix subix ncpt d) SampleParts.spotted
     = score_eval_spot_token Sample.ln Sample.log_density Sample.distribution
         ncpt d spot).
Proof.
  assert (C : constructed SampleParts.at_end).
  { apply (constructed_attach "end"%string (-1)%Z Sample.lib). reflexivity. }
  split; [exact C|]. split; [reflexivity|].
  apply (score_token_zero Sample.ln Sample.log_density Sample.distribution
           SampleParts.at_end SampleParts.spotted); [exact C | reflexivity].
Defined.

Section EvalSpotScore.

Variable ln : Q -> Q.
Variable log_density : Normal -> Q -> Q.
Variable distribution : Normal -> Q -> Q.

(** The score of a finite value, branch by branch. *)
Lemma score_eval_spot_token_fin (ncpt : Z) (d : Normal) (v : Q) :
  score_eval_spot_token ln log_density distribution ncpt d (Fin v) =
  Some (if Qlt_bool v (inject_Z 2) || Qlt_bool (inject_Z (ncpt + 1)) v then NInf
        else tsub (Fin (log_density d v))
                  (torch_log ln (Fin (mass_within distribution ncpt d)))).
Proof.
  unfold score_eval_spot_token, bspline_gen_s. simpl.
  destruct (Qlt_bool v (inject_Z 2) || Qlt_bool (inject_Z (ncpt + 1)) v); reflexivity.
Qed.

Lemma tsub_fin_log_not_neg_inf (a q : Q) :
  tsub (Fin a) (torch_log ln (Fin q)) <> NInf.
Proof.
  cbn.
  destruct (Qeq_bool q 0); cbn; [discriminate|].
  destruct (Qlt_bool q 0); cbn; discriminate.
Qed.

(** The guard of the score, as a statement about the closed interval. *)
Lemma out_of_bounds_iff (ncpt : Z) (v : Q) :
  Qlt_bool v (inject_Z 2) || Qlt_bool (inject_Z (ncpt + 1)) v = true
  <-> ~ (2 <= v <= inject_Z (ncpt + 1)).
Proof.
  change (inject_Z 2) with 2.
  rewrite orb_true_iff, !Qlt_bool_iff. split.
  - intros [H|H] [A B]; lra.
  - intro H. destruct (Qlt_le_dec v 2) as [L|L]; [left; exact L|].
    destruct (Qlt_le_dec (inject_Z (ncpt + 1)) v) as [U|U]; [right; exact U|].
    exfalso. apply H. split; assumption.
Qed.




End EvalSpotScore.





Section EvalSpotSampling.

Variable ln : Q -> Q.
Variable log_density : Normal -> Q -> Q.
Variable distribution : Normal -> Q -> Q.
Variable rng : Type.
Variable normal_sample : Normal -> rng -> Q * rng.

Lemma score_not_neg_inf_iff (ncpt : Z) (d : Normal) (v : Q) :
  (exists ll, score_eval_spot_token ln log_density distribution ncpt d (Fin v)
              = Some ll /\ is_neg_inf ll = false)
  <-> 2 <= v <= inject_Z (ncpt + 1).
Proof.
  rewrite score_eval_spot_token_fin.
  destruct (Qlt_bool v (inject_Z 2) || Qlt_bool (inject_Z (ncpt + 1)) v) eqn:G.
  - apply out_of_bounds_iff in G. split.
    + intros (ll & E & H). inversion E; subst ll. discriminate.
    + intro H. contradiction.
  - split.
    + intros _. destruct (Qlt_le_dec v 2) as [L|L].
      * apply Qlt_bool_iff in L. change 2 with (inject_Z 2) in L.
        rewrite L in G. discriminate.
      * destruct (Qlt_le_dec (inject_Z (ncpt + 1)) v) as [U|U].
        -- apply Qlt_bool_iff in U. rewrite U, orb_true_r in G. discriminate.
        -- split; assumption.
    + intros _. eexists. split; [reflexivity|].
      pose proof (tsub_fin_log_not_neg_inf ln (log_density d v)
                    (mass_within distribution ncpt d)) as N.
      destruct (tsub _ _); try reflexivity. contradiction.
Qed.

(** The loop returns as soon as the draws available reach a value of the
    domain. *)
Lemma sample_eval_spot_token_returns (ncpt : Z) (d : Normal) (n : nat) :
  forall (g : rng) (fuel : nat),
    2 <= draw_at rng normal_sample d n g <= inject_Z (ncpt + 1) ->
    (n < fuel)%nat ->
    exists v g',
      sample_eval_spot_token ln log_density distribution rng normal_sample
        fuel ncpt d g = Some (v, g').
Proof.
  induction n as [|n IH]; intros g [|fuel] Hin Hf; try lia; simpl in *;
    destruct (normal_sample d g) as [x g1] eqn:E; simpl in Hin;
    rewrite score_eval_spot_token_fin;
    destruct (is_neg_inf _) eqn:N; eauto.
  - exfalso. apply (score_not_neg_inf_iff ncpt d x) in Hin.
    destruct Hin as (ll & Hll & Hn). rewrite score_eval_spot_token_fin in Hll.
    inversion Hll; subst ll. congruence.
  - apply IH; [exact Hin | lia].
Qed.



End EvalSpotSampling.



(** * Further properties *)

(** ** Blending control points *)




















(** ** The ends of the domain *)





















(** ** Generated parameters *)





(** ** Trajectories at a given sample count *)

Section ExplicitCount.

Variables spline_min_neval spline_max_neval : Z.
Variable spline_grain : tfloat.
Variable dist_along_traj : matrix -> tfloat.




End ExplicitCount.



(** ** The interior of the domain *)








(** ** Shapes and ranges *)












(** ** Construction of relations and tokens *)

Lemma str_in_allowed (c : String.string) :
  str_in c ["unihist"; "start"; "end"]%string = true \/ c = "mid"%string
  <-> str_in c categories_allowed = true.
Proof.
  unfold str_in, categories_allowed. simpl.
  destruct (String.eqb_spec c "unihist"%string); [tauto|].
  destruct (String.eqb_spec c "start"%string); [tauto|].
  destruct (String.eqb_spec c "end"%string); [tauto|].
  destruct (String.eqb_spec c "mid"%string); simpl; [tauto|].
  split; [intros [H|H]; [discriminate|contradiction] | discriminate].
Qed.

(** The four constructors, with the assertions of the parent classes folded
    in. *)
Lemma relation_constructors_validate (c : String.string) (g : vector)
    (ix subix : Z) (e : Q) (lib : Library) :
  Relation_init c lib
  = (if str_in c categories_allowed then Some (IsRelation c (make_loc_dist lib))
     else None) /\
  RelationIndependent_init c g lib
  = (if String.eqb c "unihist"%string && Nat.eqb (length g) 2
     then Some (IsRelationIndependent "unihist"%string (make_loc_dist lib) g) else None) /\
  RelationAttach_init c ix lib
  = (if str_in c ["start"; "end"; "mid"]%string
     then Some (IsRelationAttach c (make_loc_dist lib) ix) else None) /\
  RelationAttachAlong_init c ix subix e lib
  = (if String.eqb c "mid"%string
     then Some (IsRelationAttachAlong "mid"%string (make_loc_dist lib) ix subix (lib_ncpt lib)
                  {| loc := e; scale := tokenvar_sigma_attach lib |})
     else None).
Proof.
  split; [reflexivity|]. split; [|split].
  - unfold RelationIndependent_init, Relation_init.
    destruct (String.eqb_spec c "unihist"%string) as [->|N]; [reflexivity|].
    destruct (str_in c categories_allowed); reflexivity.
  - unfold RelationAttach_init, Relation_init.
    destruct (str_in c ["start"; "end"; "mid"]%string) eqn:E.
    + assert (A : str_in c categories_allowed = true).
      { unfold str_in, categories_allowed in *. simpl in *.
        destruct (String.eqb c "unihist"%string); [reflexivity|]. exact E. }
      rewrite A. reflexivity.
    + destruct (str_in c categories_allowed); reflexivity.
  - unfold RelationAttachAlong_init, RelationAttach_init, Relation_init.
    destruct (String.eqb_spec c "mid"%string) as [->|N]; [reflexivity|].
    destruct (str_in c categories_allowed); [|reflexivity].
    destruct (str_in c ["start"; "end"; "mid"]%string); reflexivity.
Qed.

(** The class of a constructed relation and its category agree. *)
Lemma constructed_class (r : Relation) :
  constructed r ->
  match r with
  | IsRelation c _ => str_in c categories_allowed = true
  | IsRelationIndependent c _ g => c = "unihist"%string /\ length g = 2%nat
  | IsRelationAttach c _ _ => str_in c ["start"; "end"; "mid"]%string = true
  | IsRelationAttachAlong c _ _ _ _ _ => c = "mid"%string
  end.
Proof.
  intros [c lib r' H | c g lib r' H | c ix lib r' H | c ix subix e lib r' H].
  - unfold Relation_init in H.
    destruct (str_in c categories_allowed) eqn:E; inversion H. exact E.
  - unfold RelationIndependent_init in H.
    destruct (Relation_init c lib); [|discriminate].
    destruct (String.eqb_spec c "unihist"%string); [|discriminate].
    destruct (Nat.eqb_spec (length g) 2); inversion H. split; assumption.
  - unfold RelationAttach_init in H.
    destruct (Relation_init c lib); [|discriminate].
    destruct (str_in c _) eqn:E; inversion H. exact E.
  - unfold RelationAttachAlong_init in H.
    destruct (RelationAttach_init c ix lib); [|discriminate].
    destruct (String.eqb_spec c "mid"%string); inversion H. assumption.
Qed.

Lemma constructed_category (r : Relation) :
  constructed r -> str_in (category r) categories_allowed = true.
Proof.
  intro H. apply constructed_class in H.
  destruct r as [c ld | c ld g | c ld ix | c ld ix subix ncpt d]; simpl.
  - exact H.
  - destruct H as [-> _]. reflexivity.
  - apply str_in_allowed.
    unfold str_in in *. simpl in *.
    destruct (String.eqb_spec c "start"%string); [left; rewrite orb_true_r; reflexivity|].
    destruct (String.eqb_spec c "end"%string);
      [left; rewrite !orb_true_r; reflexivity|].
    destruct (String.eqb_spec c "mid"%string); [right; assumption | discriminate].
  - subst c. reflexivity.
Qed.

(** X10. Class and category agree on every relation object that the
    constructors build: the category is one of the four allowed ones; a
    [RelationIndependent] has category [unihist] and a position of two
    coordinates; a [RelationAttach] has category [start], [end] or [mid]; a
    [RelationAttachAlong] has category [mid]. *)
Theorem constructed_relation_invariant (r : Relation) :
  constructed r ->
  str_in (category r) categories_allowed = true /\
  match r with
  | IsRelation c _ => True
  | IsRelationIndependent c _ g =>
      c = "unihist"%string /\ length g = 2%nat /\ gpos r = Some g
  | IsRelationAttach c _ ix =>
      str_in c ["start"; "end"; "mid"]%string = true /\ attach_ix r = Some ix
  | IsRelationAttachAlong c _ ix subix _ _ =>
      c = "mid"%string /\ attach_ix r = Some ix /\ attach_subix r = Some subix
  end.
Proof.
  intro H. split; [apply constructed_category; exact H|].
  apply constructed_class in H.
  destruct r as [c ld | c ld g | c ld ix | c ld ix subix ncpt d]; simpl.
  - exact I.
  - destruct H as [H1 H2]. repeat split; assumption.
  - split; [exact H | reflexivity].
  - repeat split. exact H.
Qed.

Lemma constructed_relation_invariant_witness :
  constructed SampleParts.along /\
  str_in (category SampleParts.along) categories_allowed = true /\
  "mid"%string = "mid"%string /\
  attach_ix SampleParts.along = Some 0%Z /\
  attach_subix SampleParts.along = Some 1%Z.
Proof.
  assert (C : constructed SampleParts.along).
  { apply (constructed_along "mid"%string 0%Z 1%Z 3 Sample.lib). reflexivity. }
  split; [exact C|].
  exact (constructed_relation_invariant SampleParts.along C).
Defined.

Lemma keys_are_get (name : String.string) (kw : kwargs) :
  keys_are name kw = true ->
  exists v rest, kw = (name, v) :: rest /\ kwargs_get name kw = Some v.
Proof.
  destruct kw as [|[k v] rest]; [discriminate|].
  simpl. intro H. apply andb_true_iff in H. destruct H as [H _].
  apply String.eqb_eq in H. subst k.
  exists v, rest. split; [reflexivity|]. rewrite String.eqb_refl. reflexivity.
Qed.

(** X11. A token is a tagged union: for a constructed relation, the token
    constructor accepts no keyword argument when the category is [unihist],
    [start] or [end], and exactly the eval spot when it is [mid]; the token
    it builds carries an eval spot if and only if the category is [mid]. *)
Theorem relation_token_tagged (r : Relation) (kw : kwargs) (tok : RelationToken) :
  constructed r ->
  RelationToken_init r kw = Some tok ->
  rel tok = r /\
  (category r <> "mid"%string -> kw = [] /\ eval_spot_token tok = None) /\
  (category r = "mid"%string ->
   exists v rest, kw = ("eval_spot_token"%string, v) :: rest /\
                  keys_are "eval_spot_token"%string kw = true /\
                  eval_spot_token tok = Some v).
Proof.
  intros Hr H. apply constructed_category in Hr. apply str_in_allowed in Hr.
  unfold RelationToken_init in H.
  destruct (str_in (category r) ["unihist"; "start"; "end"]%string) eqn:E.
  - destruct kw; [|discriminate]. inversion H; subst tok. simpl.
    split; [reflexivity|]. split; [intros _; split; reflexivity|].
    intro M. rewrite M in E. discriminate.
  - destruct Hr as [Hr|Hr]; [discriminate|].
    destruct (keys_are "eval_spot_token"%string kw) eqn:K; [|discriminate].
    inversion H; subst tok. simpl. split; [reflexivity|]. split.
    + intro N. contradiction.
    + intros _. destruct (keys_are_get _ _ K) as (v & rest & Hkw & Hget).
      exists v, rest. repeat split; assumption.
Qed.

Lemma relation_token_tagged_witness :
  constructed SampleParts.along /\
  RelationToken_init SampleParts.along [("eval_spot_token"%string, Fin 3)]
  = Some SampleParts.spotted /\
  rel SampleParts.spotted = SampleParts.along /\
  (category SampleParts.along <> "mid"%string ->
   [("eval_spot_token"%string, Fin 3)] = [] /\
   eval_spot_token SampleParts.spotted = None) /\
  (category SampleParts.along = "mid"%string ->
   exists v rest, [("eval_spot_token"%string, Fin 3)]
                  = ("eval_spot_token"%string, v) :: rest /\
                  keys_are "eval_spot_token"%string [("eval_spot_token"%string, Fin 3)] = true /\
                  eval_spot_token SampleParts.spotted = Some v).
Proof.
  assert (C : constructed SampleParts.along).
  { apply (constructed_along "mid"%string 0%Z 1%Z 3 Sample.lib). reflexivity. }
  split; [exact C|]. split; [reflexivity|].
  apply (relation_token_tagged SampleParts.along [("eval_spot_token"%string, Fin 3)]
           SampleParts.spotted); [exact C | reflexivity].
Defined.

(** ** Drawing tokens *)

Section DrawingTokens.

Variable ln : Q -> Q.
Variable log_density : Normal -> Q -> Q.
Variable distribution : Normal -> Q -> Q.
Variable rng : Type.
Variable normal_sample : Normal -> rng -> Q * rng.

(** X12. A relation of class [Relation], [RelationIndependent] or
    [RelationAttach] draws its token without touching the random generator:
    for the categories [unihist], [start] and [end] [sample_token] returns a
    token with no eval spot and the generator as it was; for the category
    [mid] it fails, on the assertion of the token constructor. *)
Theorem sample_token_without_eval_spot (fuel : nat) (r : Relation) (g : rng) :
  constructed r ->
  (forall c ld ix subix ncpt d, r <> IsRelationAttachAlong c ld ix subix ncpt d) ->
  (category r <> "mid"%string ->
   sample_token ln log_density distribution rng normal_sample fuel r g
   = Some ({| rel := r; eval_spot_token := None |}, g)) /\
  (category r = "mid"%string ->
   sample_token ln log_density distribution rng normal_sample fuel r g = None).
Proof.
  intros Hr Hclass.
  pose proof (constructed_category r Hr) as Hc. apply str_in_allowed in Hc.
  assert (S : sample_token ln log_density distribution rng normal_sample fuel r g
              = match RelationToken_init r [] with
                | Some rtoken => Some (rtoken, g)
                | None => None
                end).
  { destruct r as [c ld | c ld gp | c ld ix | c ld ix subix ncpt d];
      try reflexivity.
    exfalso. exact (Hclass _ _ _ _ _ _ eq_refl). }
  rewrite S. unfold RelationToken_init.
  destruct (str_in (category r) ["unihist"; "start"; "end"]%string) eqn:E.
  - split; [reflexivity|]. intro M. rewrite M in E. discriminate.
  - destruct Hc as [Hc|Hc]; [discriminate|]. split.
    + intro N. contradiction.
    + intros _. reflexivity.
Qed.

(** X13. With [ncpt < 1] the domain [[2, ncpt + 1]] is empty: every finite
    value scores [-inf], and the rejection loop of [sample_eval_spot_token]
    returns no value however many draws it is given. *)
Theorem sample_eval_spot_token_empty_domain (ncpt : Z) (d : Normal) :
  (ncpt < 1)%Z ->
  (forall v : Q,
     score_eval_spot_token ln log_density distribution ncpt d (Fin v) = Some NInf) /\
  (forall (fuel : nat) (g : rng),
     sample_eval_spot_token ln log_density distribution rng normal_sample
       fuel ncpt d g = None).
Proof.
  intro Hn.
  assert (A : forall v : Q,
            score_eval_spot_token ln log_density distribution ncpt d (Fin v)
            = Some NInf).
  { intro v. rewrite score_eval_spot_token_fin.
    destruct (Qlt_bool v (inject_Z 2) || Qlt_bool (inject_Z (ncpt + 1)) v) eqn:G;
      [reflexivity|].
    exfalso. apply orb_false_iff in G. destruct G as [G1 G2].
    apply Qlt_bool_false in G1. apply Qlt_bool_false in G2.
    assert (L : inject_Z (ncpt + 1) < inject_Z 2) by (rewrite <- Zlt_Qlt; lia).
    lra. }
  split; [exact A|].
  induction fuel as [|fuel IH]; intro g; [reflexivity|].
  simpl. destruct (normal_sample d g) as [x g1]. rewrite A. simpl. apply IH.
Qed.

(** X14. The rejection loop returns the first draw that falls in the domain:
    if the draws number [0] to [n - 1] from the state [g] fall outside
    [[2, ncpt + 1]] and draw number [n] falls inside, then with more than [n]
    draws allowed [sample_eval_spot_token] returns draw number [n] and the
    generator state after [n + 1] draws. *)
Theorem sample_eval_spot_token_first_hit (ncpt : Z) (d : Normal) (n fuel : nat)
    (g : rng) :
  (forall m, (m < n)%nat ->
     ~ (2 <= draw_at rng normal_sample d m g <= inject_Z (ncpt + 1))) ->
  2 <= draw_at rng normal_sample d n g <= inject_Z (ncpt + 1) ->
  (n < fuel)%nat ->
  sample_eval_spot_token ln log_density distribution rng normal_sample
    fuel ncpt d g
  = Some (Fin (draw_at rng normal_sample d n g),
          rng_after rng normal_sample d (S n) g).
Proof.
  revert fuel g. induction n as [|n IH]; intros [|fuel] g Hout Hin Hf; try lia.
  - simpl in *. destruct (normal_sample d g) as [x g1]. simpl in *.
    rewrite score_eval_spot_token_fin.
    destruct (Qlt_bool x (inject_Z 2) || Qlt_bool (inject_Z (ncpt + 1)) x) eqn:G.
    + apply out_of_bounds_iff in G. contradiction.
    + pose proof (tsub_fin_log_not_neg_inf ln (log_density d x)
                    (mass_within distribution ncpt d)) as N.
      destruct (tsub _ _); try reflexivity. contradiction.
  - pose proof (Hout 0%nat ltac:(lia)) as H0.
    simpl in H0 |- *. destruct (normal_sample d g) as [x g1] eqn:E. simpl in H0.
    rewrite score_eval_spot_token_fin.
    apply out_of_bounds_iff in H0. rewrite H0. simpl.
    rewrite (IH fuel g1).
    + reflexivity.
    + intros m Hm. pose proof (Hout (S m) ltac:(lia)) as Hm'.
      simpl in Hm'. rewrite E in Hm'. exact Hm'.
    + simpl in Hin. rewrite E in Hin. exact Hin.
    + lia.
Qed.

End DrawingTokens.

Lemma sample_token_without_eval_spot_witness :
  constructed SampleParts.at_start /\
  (forall c ld ix subix ncpt d,
     SampleParts.at_start <> IsRelationAttachAlong c ld ix subix ncpt d) /\
  (category SampleParts.at_start <> "mid"%string ->
   sample_token Sample.ln Sample.log_density Sample.distribution Sample.rng
     Sample.normal_sample 0 SampleParts.at_start 7%nat
   = Some ({| rel := SampleParts.at_start; eval_spot_token := None |}, 7%nat)) /\
  (category SampleParts.at_start = "mid"%string ->
   sample_token Sample.ln Sample.log_density Sample.distribution Sample.rng
     Sample.normal_sample 0 SampleParts.at_start 7%nat = None).
Proof.
  assert (C : constructed SampleParts.at_start).
  { apply (constructed_attach "start"%string 0%Z Sample.lib). reflexivity. }
  assert (N : forall c ld ix subix ncpt d,
            SampleParts.at_start <> IsRelationAttachAlong c ld ix subix ncpt d)
    by (intros; discriminate).
  split; [exact C|]. split; [exact N|].
  apply (sample_token_without_eval_spot Sample.ln Sample.log_density
           Sample.distribution Sample.rng Sample.normal_sample 0
           SampleParts.at_start 7%nat); assumption.
Defined.

Lemma sample_eval_spot_token_empty_domain_witness :
  (0 < 1)%Z /\
  (forall v : Q,
     score_eval_spot_token Sample.ln Sample.log_density Sample.distribution 0
       {| loc := 3; scale := 1 # 2 |} (Fin v) = Some NInf) /\
  (forall (fuel : nat) (g : Sample.rng),
     sample_eval_spot_token Sample.ln Sample.log_density Sample.distribution
       Sample.rng Sample.normal_sample fuel 0 {| loc := 3; scale := 1 # 2 |} g
     = None).
Proof.
  split; [lia|].
  apply (sample_eval_spot_token_empty_domain Sample.ln Sample.log_density
           Sample.distribution Sample.rng Sample.normal_sample 0
           {| loc := 3; scale := 1 # 2 |}).
  lia.
Defined.

Lemma sample_eval_spot_token_first_hit_witness :
  (forall m, (m < 4)%nat ->
     ~ (2 <= draw_at Sample.rng Sample.normal_sample {| loc := 3; scale := 1 # 2 |} m 0%nat
        <= inject_Z (5 + 1))) /\
  2 <= draw_at Sample.rng Sample.normal_sample {| loc := 3; scale := 1 # 2 |} 4 0%nat
    <= inject_Z (5 + 1) /\
  (4 < 10)%nat /\
  sample_eval_spot_token Sample.ln Sample.log_density Sample.distribution
    Sample.rng Sample.normal_sample 10 5 {| loc := 3; scale := 1 # 2 |} 0%nat
  = Some (Fin (draw_at Sample.rng Sample.normal_sample
                 {| loc := 3; scale := 1 # 2 |} 4 0%nat),
          rng_after Sample.rng Sample.normal_sample
            {| loc := 3; scale := 1 # 2 |} 5 0%nat).
Proof.
  assert (A : forall m, (m < 4)%nat ->
     ~ (2 <= draw_at Sample.rng Sample.normal_sample {| loc := 3; scale := 1 # 2 |} m 0%nat
        <= inject_Z (5 + 1))).
  { intros m Hm [L _].
    destruct m as [|[|[|[|m]]]]; try lia; vm_compute in L; apply L; reflexivity. }
  assert (B : 2 <= draw_at Sample.rng Sample.normal_sample
                     {| loc := 3; scale := 1 # 2 |} 4 0%nat <= inject_Z (5 + 1))
    by (split; vm_compute; discriminate).
  split; [exact A|]. split; [exact B|]. split; [lia|].
  apply (sample_eval_spot_token_first_hit Sample.ln Sample.log_density
           Sample.distribution Sample.rng Sample.normal_sample 5
           {| loc := 3; scale := 1 # 2 |} 4 10 0%nat); [exact A | exact B | lia].
Defined.

(** ** Attach points and locations *)

Lemma py_index_out_of_range {A : Type} (l : list A) (i : Z) :
  (i < - Z.of_nat (length l) \/ Z.of_nat (length l) <= i)%Z -> py_index l i = None.
Proof.
  intro H. unfold py_index.
  destruct (Z.leb_spec 0 i), (Z.ltb_spec i (Z.of_nat (length l))); simpl;
    destruct (Z.leb_spec (- Z.of_nat (length l)) i), (Z.ltb_spec i 0); simpl;
    try reflexivity; lia.
Qed.

Lemma py_index_negative {A : Type} (l : list A) (i : Z) :
  (- Z.of_nat (length l) <= i < 0)%Z ->
  py_index l i = py_index l (i + Z.of_nat (length l)).
Proof.
  intro H. unfold py_index.
  destruct (Z.leb_spec 0 i); [lia|]. simpl.
  destruct (Z.leb_spec (- Z.of_nat (length l)) i); [|lia].
  destruct (Z.ltb_spec i 0); [|lia]. simpl.
  destruct (Z.leb_spec 0 (i + Z.of_nat (length l))); [|lia].
  destruct (Z.ltb_spec (i + Z.of_nat (length l)) (Z.of_nat (length l))); [|lia].
  simpl. f_equal. lia.
Qed.

(** X15. Looking up the previous part follows Python indexing: an attaching
    relation whose [attach_ix] is outside [[-len, len)] has no attach point
    (a lookup failure, in particular on an empty list of previous parts),
    and an index in [[-len, 0)] resolves like the same index plus [len]. *)
Theorem get_attach_point_indexing (c : String.string) (ld : MultivariateNormal)
    (ix : Z) (spot : option tfloat) (prev_parts : list PartToken) :
  c <> "unihist"%string ->
  ((ix < - Z.of_nat (length prev_parts) \/ Z.of_nat (length prev_parts) <= ix)%Z ->
   get_attach_point {| rel := IsRelationAttach c ld ix; eval_spot_token := spot |}
     prev_parts = None) /\
  ((- Z.of_nat (length prev_parts) <= ix < 0)%Z ->
   get_attach_point {| rel := IsRelationAttach c ld ix; eval_spot_token := spot |}
     prev_parts
   = get_attach_point
       {| rel := IsRelationAttach c ld (ix + Z.of_nat (length prev_parts));
          eval_spot_token := spot |} prev_parts).
Proof.
  intro Hc. apply String.eqb_neq in Hc.
  unfold get_attach_point. simpl. rewrite Hc. split; intro H.
  - rewrite (py_index_out_of_range _ _ H). reflexivity.
  - rewrite (py_index_negative _ _ H). reflexivity.
Qed.

Lemma get_attach_point_indexing_witness :
  "end"%string <> "unihist"%string /\
  (((-1) < - Z.of_nat (length [SampleParts.part; SampleParts.part])
    \/ Z.of_nat (length [SampleParts.part; SampleParts.part]) <= (-1))%Z ->
   get_attach_point
     {| rel := IsRelationAttach "end"%string (make_loc_dist Sample.lib) (-1);
        eval_spot_token := None |}
     [SampleParts.part; SampleParts.part] = None) /\
  ((- Z.of_nat (length [SampleParts.part; SampleParts.part]) <= -1 < 0)%Z ->
   get_attach_point
     {| rel := IsRelationAttach "end"%string (make_loc_dist Sample.lib) (-1);
        eval_spot_token := None |}
     [SampleParts.part; SampleParts.part]
   = get_attach_point
       {| rel := IsRelationAttach "end"%string (make_loc_dist Sample.lib)
                   (-1 + Z.of_nat (length [SampleParts.part; SampleParts.part]));
          eval_spot_token := None |}
       [SampleParts.part; SampleParts.part]).
Proof.
  split; [discriminate|].
  apply (get_attach_point_indexing "end"%string (make_loc_dist Sample.lib) (-1) None
           [SampleParts.part; SampleParts.part]).
  discriminate.
Defined.

Section SampledAttachPoint.

Variable ln : Q -> Q.
Variable log_density : Normal -> Q -> Q.
Variable distribution : Normal -> Q -> Q.
Variable rng : Type.
Variable normal_sample : Normal -> rng -> Q * rng.


End SampledAttachPoint.


Section Locations.

Variable rng : Type.
Variable mvn_sample : MultivariateNormal -> rng -> vector * rng.
Variable mvn_log_prob : MultivariateNormal -> vector -> option tfloat.


End Locations.


(** ** Fitting *)

Section Fitting.

Variable least_squares : matrix -> matrix -> option (matrix * vector).

Lemma bspline_fit_system (s : vector) (X : matrix) (n : nat) (flag : bool) :
  bspline_fit least_squares s X (Z.of_nat n) flag
  = if has_shape X (length s) 2 then
      match least_squares (map (fun x => normalize_row (raw_row n x)) s) X with
      | Some (Y, r) => Some (Y, if flag then Some r else None)
      | None => None
      end
    else None.
Proof.
  unfold bspline_fit. destruct (has_shape X (length s) 2); [|reflexivity].
  destruct (Z.ltb_spec (Z.of_nat n) 0); [lia|].
  rewrite Nat2Z.id, coeff_grid. unfold normalize_rows. rewrite map_map.
  fold normalize_row.
  destruct (least_squares _ X) as [[Y r]|]; [|reflexivity].
  destruct flag; reflexivity.
Qed.

(** X18. [fit_bspline_to_traj] hands to the solver the system [Cof Y = X]
    for the coefficient matrix of the parameters [bspline_gen_s(nland, len(X))]:
    the control points [Y] it returns are the solver's answer, they are the
    same with and without [include_resid], and evaluating them with
    [bspline_eval] at these parameters returns [Cof @ Y] with the same [Cof]. *)
Theorem fit_bspline_to_traj_system (X : matrix) (n : nat) (flag : bool)
    (Y : matrix) (res : option vector) :
  fit_bspline_to_traj least_squares X (Z.of_nat n) flag = Some (Y, res) ->
  length Y = n ->
  two_columns Y = true ->
  exists (s : vector) (Cof : matrix) (r : vector),
    bspline_gen_s (Z.of_nat n) (Z.of_nat (length X))
    = Some (s, tZ 2, tZ (Z.of_nat n + 1)) /\
    length s = length X /\
    least_squares Cof X = Some (Y, r) /\
    res = (if flag then Some r else None) /\
    fit_bspline_to_traj least_squares X (Z.of_nat n) (negb flag)
    = Some (Y, if flag then None else Some r) /\
    bspline_eval (Vec s) Y = Some (matmul Cof Y 2, Cof).
Proof.
  intros H HY HY2. unfold fit_bspline_to_traj in *.
  destruct (forallb _ X); [|discriminate].
  destruct (bspline_gen_s_length (Z.of_nat n) (Z.of_nat (length X))) as (s & Hs & Hl);
    [lia|].
  rewrite Hs in *. rewrite Nat2Z.id in Hl.
  assert (F : bspline_fit least_squares s X (Z.of_nat n) flag = Some (Y, res))
    by (destruct flag; exact H).
  rewrite bspline_fit_system in F.
  destruct (has_shape X (length s) 2) eqn:Sh; [|discriminate].
  destruct (least_squares _ X) as [[Y0 r]|] eqn:L; [|discriminate].
  inversion F; subst Y0 res. clear F.
  exists s, (map (fun x => normalize_row (raw_row n x)) s), r.
  split; [reflexivity|]. split; [exact Hl|]. split; [exact L|].
  split; [reflexivity|]. split.
  - assert (G : bspline_fit least_squares s X (Z.of_nat n) (negb flag)
                = Some (Y, if flag then None else Some r)).
    { rewrite bspline_fit_system, Sh, L. destruct flag; reflexivity. }
    destruct flag; exact G.
  - rewrite (bspline_eval_rows _ _ HY2). simpl param_entries. rewrite HY.
    reflexivity.
Qed.

End Fitting.

Lemma fit_bspline_to_traj_system_witness :
  fit_bspline_to_traj SampleLocation.least_squares SampleLocation.X
    (Z.of_nat 5) true = Some (SampleParts.curve, Some [Fin 0; Fin 0]) /\
  length SampleParts.curve = 5%nat /\
  two_columns SampleParts.curve = true /\
  exists (s : vector) (Cof : matrix) (r : vector),
    bspline_gen_s (Z.of_nat 5) (Z.of_nat (length SampleLocation.X))
    = Some (s, tZ 2, tZ (Z.of_nat 5 + 1)) /\
    length s = length SampleLocation.X /\
    SampleLocation.least_squares Cof SampleLocation.X = Some (SampleParts.curve, r) /\
    Some [Fin 0; Fin 0] = (if true then Some r else None) /\
    fit_bspline_to_traj SampleLocation.least_squares SampleLocation.X
      (Z.of_nat 5) (negb true)
    = Some (SampleParts.curve, if true then None else Some r) /\
    bspline_eval (Vec s) SampleParts.curve
    = Some (matmul Cof SampleParts.curve 2, Cof).
Proof.
  split; [vm_compute; reflexivity|]. split; [reflexivity|]. split; [reflexivity|].
  apply (fit_bspline_to_traj_system SampleLocation.least_squares SampleLocation.X
           5 true SampleParts.curve (Some [Fin 0; Fin 0]));
    [vm_compute; reflexivity | reflexivity | reflexivity].
Defined.

(** ** Reversal *)












Section ReversedStroke.

Variables spline_min_neval spline_max_neval : Z.
Variable spline_grain : tfloat.
Variable dist_along_traj : matrix -> tfloat.


End ReversedStroke.


(** ** The adaptive sample count *)

Section AdaptiveCount.

Variables spline_min_neval spline_max_neval : Z.
Variable spline_grain : tfloat.
Variable dist_along_traj : matrix -> tfloat.

Lemma adaptive_neval_reference (Y stk : matrix) :
  reference_stroke spline_min_neval Y = Some stk ->
  adaptive_neval spline_min_neval spline_max_neval spline_grain dist_along_traj Y
  = match py_ceil (tdiv (dist_along_traj stk) spline_grain) with
    | Some n => Some (Z.min (Z.max n spline_min_neval) spline_max_neval)
    | None => None
    end.
Proof.
  intro H. unfold adaptive_neval. unfold reference_stroke in H.
  destruct (bspline_gen_s _ _) as [[[s0 lb] ub]|]; [|discriminate].
  destruct (bspline_eval (Vec s0) Y) as [[stk0 Cof0]|]; [|discriminate].
  simpl in H. inversion H; subst stk0. reflexivity.
Qed.

(** X21. A longer reference stroke never gets fewer samples: if the measured
    length over the grain is [d1] for one spline and [d2 >= d1] for another,
    the adaptive sample count of the second is at least that of the first. *)
Theorem adaptive_neval_monotone (Y1 Y2 stk1 stk2 : matrix) (d1 d2 : Q) :
  reference_stroke spline_min_neval Y1 = Some stk1 ->
  reference_stroke spline_min_neval Y2 = Some stk2 ->
  tdiv (dist_along_traj stk1) spline_grain = Fin d1 ->
  tdiv (dist_along_traj stk2) spline_grain = Fin d2 ->
  d1 <= d2 ->
  exists n1 n2 : Z,
    adaptive_neval spline_min_neval spline_max_neval spline_grain
      dist_along_traj Y1 = Some n1 /\
    adaptive_neval spline_min_neval spline_max_neval spline_grain
      dist_along_traj Y2 = Some n2 /\
    (n1 <= n2)%Z.
Proof.
  intros H1 H2 D1 D2 Hd.
  rewrite (adaptive_neval_reference _ _ H1), (adaptive_neval_reference _ _ H2).
  rewrite D1, D2. simpl. do 2 eexists. split; [reflexivity|]. split; [reflexivity|].
  pose proof (Qceiling_resp_le _ _ Hd). lia.
Qed.

(** X22. When the measured length over the grain is not a finite number (a
    grain of zero, an infinite or NaN length), rounding it up raises:
    [get_stk_from_bspline] with the count omitted fails. *)
Theorem get_stk_from_bspline_bad_grain (Y stk : matrix) :
  reference_stroke spline_min_neval Y = Some stk ->
  (spline_grain = Fin 0 \/
   is_finite (tdiv (dist_along_traj stk) spline_grain) = false) ->
  get_stk_from_bspline spline_min_neval spline_max_neval spline_grain
    dist_along_traj Y None = None.
Proof.
  intros H Hbad.
  assert (F : is_finite (tdiv (dist_along_traj stk) spline_grain) = false).
  { destruct Hbad as [->|F]; [|exact F].
    destruct (dist_along_traj stk) as [q| | |]; try reflexivity.
    unfold tdiv. replace (Qeq_bool 0 0) with true by reflexivity.
    unfold Qsign_inf. destruct (Qlt_bool 0 q); [reflexivity|].
    destruct (Qlt_bool q 0); reflexivity. }
  unfold get_stk_from_bspline.
  destruct (forallb _ Y); [|reflexivity].
  rewrite (adaptive_neval_reference _ _ H).
  destruct (tdiv (dist_along_traj stk) spline_grain); try reflexivity.
  discriminate.
Qed.

End AdaptiveCount.

Lemma adaptive_neval_monotone_witness :
  reference_stroke 3 SampleStroke.Y = Some SampleStroke.stk /\
  reference_stroke 3 SampleStroke2.Y = Some SampleStroke2.stk /\
  tdiv (SampleStroke.dist_along_traj SampleStroke.stk) (Fin (3 # 2))
  = Fin SampleStroke.d /\
  tdiv (SampleStroke.dist_along_traj SampleStroke2.stk) (Fin (3 # 2))
  = Fin SampleStroke2.d /\
  SampleStroke.d <= SampleStroke2.d /\
  exists n1 n2 : Z,
    adaptive_neval 3 100 (Fin (3 # 2)) SampleStroke.dist_along_traj SampleStroke.Y
    = Some n1 /\
    adaptive_neval 3 100 (Fin (3 # 2)) SampleStroke.dist_along_traj SampleStroke2.Y
    = Some n2 /\
    (n1 <= n2)%Z.
Proof.
  split; [vm_compute; reflexivity|]. split; [vm_compute; reflexivity|].
  split; [vm_compute; reflexivity|]. split; [vm_compute; reflexivity|].
  split; [vm_compute; discriminate|].
  apply (adaptive_neval_monotone 3 100 (Fin (3 # 2)) SampleStroke.dist_along_traj
           SampleStroke.Y SampleStroke2.Y SampleStroke.stk SampleStroke2.stk
           SampleStroke.d SampleStroke2.d);
    [vm_compute; reflexivity | vm_compute; reflexivity | vm_compute; reflexivity
    | vm_compute; reflexivity | vm_compute; discriminate].
Defined.

Lemma get_stk_from_bspline_bad_grain_witness :
  reference_stroke 3 SampleStroke.Y = Some SampleStroke.stk /\
  (Fin 0 = Fin 0 \/
   is_finite (tdiv (SampleStroke.dist_along_traj SampleStroke.stk) (Fin 0)) = false) /\
  get_stk_from_bspline 3 100 (Fin 0) SampleStroke.dist_along_traj SampleStroke.Y None
  = None.
Proof.
  split; [vm_compute; reflexivity|]. split; [left; reflexivity|].
  apply (get_stk_from_bspline_bad_grain 3 100 (Fin 0) SampleStroke.dist_along_traj
           SampleStroke.Y SampleStroke.stk); [vm_compute; reflexivity | left; reflexivity].
Defined.
